(** * hivemind: persistence layer, file store and session gate

    A shallow embedding of [database.py] and of the authentication part of
    [app.py].  Documents are Python dicts (finite maps from field names to
    values), the document store, the upload directory and the credential
    hasher's call log form an explicit world, and every coroutine of the
    source is a computation in a state-and-exception monad over that world. *)

From Stdlib Require Import ZArith NArith Ascii String.
From stdpp Require Import gmap strings list.

Local Open Scope string_scope.

(** ** Python values and dicts *)

Inductive value : Type :=
  | VNone
  | VBool (b : bool)
  | VStr (s : string)
  | VList (l : list string)
  | VDate (t : Z)
  | VObjectId (n : N).

#[global] Instance value_eq_dec : EqDecision value.
Proof. solve_decision. Defined.

Abbreviation doc := (gmap string value).

(** Truth value testing, as [if x:] and [all([...])] do it. *)
Definition truthy (v : value) : bool :=
  match v with
  | VNone => false
  | VBool b => b
  | VStr s => negb (String.eqb s "")
  | VList l => negb (bool_decide (l = []))
  | VDate _ => true
  | VObjectId _ => true
  end.

(** A dict is true when it is not empty. *)
Definition dict_truthy (d : doc) : bool := negb (bool_decide (d = ∅)).

(** [d.get(k)]: the value, or [None]. *)
Definition dict_get (d : doc) (k : string) : value := default VNone (d !! k).

(** [d.pop(k, dflt)]: the value and the dict without the key. *)
Definition dict_pop (d : doc) (k : string) (dflt : value) : value * doc :=
  (default dflt (d !! k), delete k d).

(** ** Hexadecimal rendering ([uuid4().hex], [str(ObjectId)]) *)

Definition hex_digit (d : N) : ascii :=
  match d with
  | 0%N => "0" | 1%N => "1" | 2%N => "2" | 3%N => "3"
  | 4%N => "4" | 5%N => "5" | 6%N => "6" | 7%N => "7"
  | 8%N => "8" | 9%N => "9" | 10%N => "a" | 11%N => "b"
  | 12%N => "c" | 13%N => "d" | 14%N => "e" | _ => "f"
  end%char.

(** [k] digits of [n], most significant first, in front of [acc]. *)
Fixpoint hex_acc (k : nat) (n : N) (acc : string) : string :=
  match k with
  | O => acc
  | S k' => hex_acc k' (n / 16)%N (String (hex_digit (n mod 16)%N) acc)
  end.

Definition hex_fixed (k : nat) (n : N) : string := hex_acc k n "".

Definition is_hex (c : ascii) : bool :=
  let n := N_of_ascii c in
  ((48 <=? n) && (n <=? 57) || (97 <=? n) && (n <=? 102))%N.

Fixpoint string_forall (P : ascii -> bool) (s : string) : bool :=
  match s with
  | EmptyString => true
  | String c s' => P c && string_forall P s'
  end.

(** ** database.py: configuration and world *)

Definition UPLOAD_DIR : string := "uploads".

Inductive collection : Type :=
  | projects_collection
  | members_collection
  | gallery_collection
  | blogs_collection
  | users_collection.

#[global] Instance collection_eq_dec : EqDecision collection.
Proof. solve_decision. Defined.

Record World : Type := mkWorld {
  projects : list doc;
  members : list doc;
  gallery : list doc;
  blogs : list doc;
  users : list doc;
  (** files on disk, by path *)
  disk : gmap string (list Byte.byte);
  (** plaintexts handed to the credential hasher, latest first *)
  hashed : list string;
  (** ObjectIds handed out by the store so far *)
  oids : N;
  (** draws taken from the random source so far *)
  draws : nat;
  (** readings taken from the clock so far *)
  ticks : nat
}.

Definition documents (c : collection) (w : World) : list doc :=
  match c with
  | projects_collection => projects w
  | members_collection => members w
  | gallery_collection => gallery w
  | blogs_collection => blogs w
  | users_collection => users w
  end.

Definition set_documents (c : collection) (l : list doc) (w : World) : World :=
  match c with
  | projects_collection =>
      mkWorld l (members w) (gallery w) (blogs w) (users w)
              (disk w) (hashed w) (oids w) (draws w) (ticks w)
  | members_collection =>
      mkWorld (projects w) l (gallery w) (blogs w) (users w)
              (disk w) (hashed w) (oids w) (draws w) (ticks w)
  | gallery_collection =>
      mkWorld (projects w) (members w) l (blogs w) (users w)
              (disk w) (hashed w) (oids w) (draws w) (ticks w)
  | blogs_collection =>
      mkWorld (projects w) (members w) (gallery w) l (users w)
              (disk w) (hashed w) (oids w) (draws w) (ticks w)
  | users_collection =>
      mkWorld (projects w) (members w) (gallery w) (blogs w) l
              (disk w) (hashed w) (oids w) (draws w) (ticks w)
  end.

(** ** Exceptions and the monad of coroutines *)

Inductive exn : Type :=
  | KeyError (k : string)
  | TypeError
  | ValueError
  | DuplicateKeyError
  | HTTPException (status_code : nat) (location : string).

Inductive outcome (A : Type) : Type :=
  | Ok (a : A)
  | Raise (e : exn).
Arguments Ok {A} a.
Arguments Raise {A} e.

Definition M (A : Type) : Type := World -> outcome A * World.

Definition ret {A} (a : A) : M A := fun w => (Ok a, w).

Definition raise {A} (e : exn) : M A := fun w => (Raise e, w).

Definition bind {A B} (m : M A) (f : A -> M B) : M B :=
  fun w =>
    match m w with
    | (Ok a, w') => f a w'
    | (Raise e, w') => (Raise e, w')
    end.

Notation "x <- m ;; k" := (bind m (fun x => k))
  (at level 100, m at next level, right associativity).
Notation "m ;;; k" := (bind m (fun _ => k))
  (at level 100, right associativity).

(** ** The platform: entropy, clock, bcrypt and the parts of [str] that the
    development leaves abstract *)

Class Platform : Type := {
  (** the [i]-th draw of the random source *)
  entropy : nat -> N;
  (** the [i]-th reading of [datetime.utcnow()] *)
  clock : nat -> Z;
  (** [pwd_context.hash] with the salt it drew *)
  bcrypt_hash : N -> string -> string;
  (** [pwd_context.verify] on a stored digest *)
  bcrypt_verify : string -> string -> bool;
  (** the secrets [pwd_context.hash] refuses besides those with a NUL
      byte, such as the ones over its size limit *)
  bcrypt_rejects : string -> bool;
  (** [str] of a datetime and of a list of strings *)
  datetime_str : Z -> string;
  list_str : list string -> string
}.

(** A platform to run the model on: counters for the random source and the
    clock, and a checksum standing in for bcrypt. *)
Fixpoint toy_sum (s : string) (acc : N) : N :=
  match s with
  | EmptyString => acc
  | String c s' => toy_sum s' ((acc * 31 + N_of_ascii c) mod 2 ^ 64)%N
  end.

Definition toy_hash (salt : N) (p : string) : string :=
  "$2b$12$" +:+ hex_fixed 16 (toy_sum p 7).

Definition toy_verify (p h : string) : bool := String.eqb (toy_hash 0 p) h.

Definition toy_platform : Platform := {|
  entropy := fun i => (N.of_nat i * 2654435761 + 48879)%N;
  clock := fun i => (1737417600 + Z.of_nat i)%Z;
  bcrypt_hash := toy_hash;
  bcrypt_verify := toy_verify;
  bcrypt_rejects := fun p => (4096 <? N.of_nat (String.length p))%N;
  datetime_str := fun _ => "2025-01-21 00:00:00";
  list_str := fun l => "[" +:+ String.concat ", " l +:+ "]"
|}.

Section Model.

Context `{Platform}.

(** [str(v)]; an ObjectId renders as its 24 hexadecimal digits. *)
Definition py_str (v : value) : string :=
  match v with
  | VNone => "None"
  | VBool true => "True"
  | VBool false => "False"
  | VStr s => s
  | VList l => list_str l
  | VDate t => datetime_str t
  | VObjectId n => hex_fixed 24 n
  end.

(** ** Environment primitives *)

(** [datetime.utcnow()] *)
Definition utcnow : M value :=
  fun w =>
    (Ok (VDate (clock (ticks w))),
     mkWorld (projects w) (members w) (gallery w) (blogs w) (users w)
             (disk w) (hashed w) (oids w) (draws w) (S (ticks w))).

(** One draw of the random source. *)
Definition draw : M N :=
  fun w =>
    (Ok (entropy (draws w)),
     mkWorld (projects w) (members w) (gallery w) (blogs w) (users w)
             (disk w) (hashed w) (oids w) (S (draws w)) (ticks w)).

(** [uuid.uuid4().hex]: 32 hexadecimal digits of a 128-bit token. *)
Definition uuid4_hex : M string :=
  n <- draw ;; ret (hex_fixed 32 (n mod 2 ^ 128)%N).

(** Opening [path] with mode ["wb"] and writing [content]. *)
Definition write_file (path : string) (content : list Byte.byte) : M unit :=
  fun w =>
    (Ok tt,
     mkWorld (projects w) (members w) (gallery w) (blogs w) (users w)
             (<[path := content]> (disk w)) (hashed w) (oids w) (draws w)
             (ticks w)).

(** ** The document store (pymongo's contract for the calls the source makes) *)

(** Equality match of a query [{k: v}] against a document: the field equals
    the value, a missing field matches [None], and a list field matches a
    string it contains. *)
Definition matches (k : string) (v : value) (d : doc) : bool :=
  match d !! k with
  | None => bool_decide (v = VNone)
  | Some x =>
      bool_decide (x = v)
      || match x, v with
         | VList l, VStr s => bool_decide (s ∈ l)
         | _, _ => false
         end
  end.

(** [collection.find_one({k: v})]: the first match in the store's order. *)
Definition find_one (c : collection) (k : string) (v : value) : M (option doc) :=
  fun w => (Ok (List.find (matches k v) (documents c w)), w).

(** [collection.find()]: every document, in the store's order. *)
Definition find (c : collection) : M (list doc) :=
  fun w => (Ok (documents c w), w).

Definition fresh_oid : M value :=
  fun w =>
    (Ok (VObjectId (oids w)),
     mkWorld (projects w) (members w) (gallery w) (blogs w) (users w)
             (disk w) (hashed w) (N.succ (oids w)) (draws w) (ticks w)).

Definition append_document (c : collection) (d : doc) : M unit :=
  fun w => (Ok tt, set_documents c (documents c w ++ [d]) w).

(** [collection.insert_one(d)]: a document without ["_id"] gets a new
    ObjectId; a supplied ["_id"] must not be in the collection yet. *)
Definition insert_one (c : collection) (d : doc) : M unit :=
  match d !! "_id" with
  | None =>
      oid <- fresh_oid ;;
      append_document c (<["_id" := oid]> d)
  | Some v =>
      taken <- find_one c "_id" v ;;
      match taken with
      | Some _ => raise DuplicateKeyError
      | None => append_document c d
      end
  end.

(** ** Library string functions used by the source *)

Definition ascii_eqb (a b : ascii) : bool := Ascii.eqb a b.

(** [s.rfind(c)] for a one-character [c]: the last index, or [-1]. *)
Fixpoint rfind (s : string) (c : ascii) : Z :=
  match s with
  | EmptyString => (-1)%Z
  | String a s' =>
      let r := rfind s' c in
      if (0 <=? r)%Z then (r + 1)%Z
      else if ascii_eqb a c then 0%Z else (-1)%Z
  end.

(** [s[:i]] and [s[i:]] for [0 <= i]. *)
Fixpoint take_str (i : nat) (s : string) : string :=
  match i, s with
  | S i', String a s' => String a (take_str i' s')
  | _, _ => EmptyString
  end.

Fixpoint drop_str (i : nat) (s : string) : string :=
  match i, s with
  | S i', String _ s' => drop_str i' s'
  | _, _ => s
  end.

(** The loop of [genericpath._splitext] that skips leading dots: is there a
    character other than the dot among the [fuel] characters from
    [filenameIndex] on? *)
Fixpoint has_stem (p : string) (filenameIndex : nat) (fuel : nat) : bool :=
  match fuel with
  | O => false
  | S fuel' =>
      match String.get filenameIndex p with
      | Some a =>
          if ascii_eqb a "."%char then has_stem p (S filenameIndex) fuel'
          else true
      | None => true
      end
  end.

(** [os.path.splitext(p)] on a POSIX host. *)
Definition splitext (p : string) : string * string :=
  let sepIndex := rfind p "/"%char in
  let dotIndex := rfind p "."%char in
  if (sepIndex <? dotIndex)%Z then
    let filenameIndex := (sepIndex + 1)%Z in
    if has_stem p (Z.to_nat filenameIndex) (Z.to_nat (dotIndex - filenameIndex))
    then (take_str (Z.to_nat dotIndex) p, drop_str (Z.to_nat dotIndex) p)
    else (p, EmptyString)
  else (p, EmptyString).

Fixpoint ends_with_slash (s : string) : bool :=
  match s with
  | EmptyString => false
  | String a EmptyString => ascii_eqb a "/"%char
  | String _ s' => ends_with_slash s'
  end.

(** [os.path.join(a, b)] on a POSIX host. *)
Definition path_join (a b : string) : string :=
  if String.prefix "/" b then b
  else if String.eqb a "" || ends_with_slash a then a +:+ b
  else a +:+ "/" +:+ b.

Definition upper_hex_digit (d : N) : ascii :=
  match d with
  | 0%N => "0" | 1%N => "1" | 2%N => "2" | 3%N => "3"
  | 4%N => "4" | 5%N => "5" | 6%N => "6" | 7%N => "7"
  | 8%N => "8" | 9%N => "9" | 10%N => "A" | 11%N => "B"
  | 12%N => "C" | 13%N => "D" | 14%N => "E" | _ => "F"
  end%char.

Fixpoint mem_char (c : ascii) (s : string) : bool :=
  match s with
  | EmptyString => false
  | String a s' => ascii_eqb a c || mem_char c s'
  end.

(** Characters [urllib.parse.quote] never escapes. *)
Definition always_safe (c : ascii) : bool :=
  let n := N_of_ascii c in
  ((65 <=? n) && (n <=? 90) || (97 <=? n) && (n <=? 122)
   || (48 <=? n) && (n <=? 57))%N
  || mem_char c "_.-~".

(** [urllib.parse.quote(s, safe=safe)] on the bytes of [s]. *)
Fixpoint quote (s : string) (safe : string) : string :=
  match s with
  | EmptyString => EmptyString
  | String c s' =>
      if always_safe c || mem_char c safe then String c (quote s' safe)
      else
        let n := N_of_ascii c in
        String "%"%char
          (String (upper_hex_digit (n / 16)%N)
             (String (upper_hex_digit (n mod 16)%N) (quote s' safe)))
  end.

(** ** database.py: credential hasher *)

(** [verify_password]: passlib answers [False] for a missing digest and
    refuses anything else that is not a string. *)
Definition verify_password (plain_password : string) (hashed_password : value)
  : M bool :=
  match hashed_password with
  | VStr h => ret (bcrypt_verify plain_password h)
  | VNone => ret false
  | _ => raise TypeError
  end.

Definition log_hash (p : string) : M unit :=
  fun w =>
    (Ok tt,
     mkWorld (projects w) (members w) (gallery w) (blogs w) (users w)
             (disk w) (p :: hashed w) (oids w) (draws w) (ticks w)).

(** [pwd_context.hash] refuses the secret: passlib raises a
    [PasswordValueError] (a [ValueError]) for a secret with a NUL byte and
    for the others the platform rejects. *)
Definition hash_refuses (p : string) : bool :=
  mem_char "000"%char p || bcrypt_rejects p.

Definition get_password_hash (password : value) : M string :=
  match password with
  | VStr p =>
      if hash_refuses p then raise ValueError
      else
        salt <- draw ;;
        log_hash p ;;;
        ret (bcrypt_hash salt p)
  | _ => raise TypeError
  end.

(** ** database.py: file store *)

Record UploadFile : Type := mkUploadFile {
  filename : option string;
  content : list Byte.byte
}.

Definition str_truthy (s : string) : bool := negb (String.eqb s "").

Definition opt_str_truthy (o : option string) : bool :=
  match o with
  | Some s => str_truthy s
  | None => false
  end.

(** An [UploadFile] object is true; only [None] is not. *)
Definition file_truthy (upload_file : option UploadFile) : bool :=
  match upload_file with
  | Some _ => true
  | None => false
  end.

Definition save_upload_file (upload_file : option UploadFile)
  : M (option string) :=
  match upload_file with
  | None => ret None
  | Some f =>
      match filename f with
      | None => ret None
      | Some fname =>
          if negb (str_truthy fname) then ret None
          else
            let file_extension := snd (splitext fname) in
            hex <- uuid4_hex ;;
            let unique_filename := hex +:+ file_extension in
            let file_path := path_join UPLOAD_DIR unique_filename in
            write_file file_path (content f) ;;;
            ret (Some ("/" +:+ UPLOAD_DIR +:+ "/" +:+ unique_filename))
      end
  end.

(** ** database.py: reads *)

Definition mongo_id_serializer (d : doc) : doc :=
  match d !! "_id" with
  | Some v => delete "_id" (<["id" := VStr (py_str v)]> d)
  | None => d
  end.

Definition get_user_by_email (email : value) : M (option doc) :=
  user <- find_one users_collection "email" email ;;
  match user with
  | Some u =>
      if dict_truthy u then ret (Some (mongo_id_serializer u)) else ret None
  | None => ret None
  end.

Definition get_all_projects : M (list doc) :=
  l <- find projects_collection ;; ret (List.map mongo_id_serializer l).

Definition get_all_members : M (list doc) :=
  l <- find members_collection ;; ret (List.map mongo_id_serializer l).

Definition get_all_users : M (list doc) :=
  l <- find users_collection ;; ret (List.map mongo_id_serializer l).

Definition get_all_gallery_items : M (list doc) :=
  l <- find gallery_collection ;; ret (List.map mongo_id_serializer l).

Definition get_all_blogs : M (list doc) :=
  l <- find blogs_collection ;; ret (List.map mongo_id_serializer l).

(** ** database.py: adds *)

(** The [{"status": ..., "message": ...}] dict every add returns. *)
Definition result (status message : string) : doc :=
  <["status" := VStr status]> (<["message" := VStr message]> ∅).

(** The value a dict slot receives from a [str | None]. *)
Definition of_opt_str (o : option string) : value :=
  match o with
  | Some s => VStr s
  | None => VNone
  end.

Definition add_project (project_data : doc) (image_file : option UploadFile)
  : M doc :=
  image_url <- save_upload_file image_file ;;
  let project_data :=
    if opt_str_truthy image_url
    then <["imageUrl" := of_opt_str image_url]> project_data
    else project_data in
  now <- utcnow ;;
  let project_data := <["createdAt" := now]> project_data in
  insert_one projects_collection project_data ;;;
  ret (result "success" "Project added successfully").

Definition add_member (member_data : doc)
    (photo_file resume_file : option UploadFile) : M doc :=
  let '(is_admin, member_data) := dict_pop member_data "isAdmin" (VBool false) in
  let name := dict_get member_data "name" in
  let email := dict_get member_data "email" in
  let password := dict_get member_data "password" in
  now <- utcnow ;;
  let member_doc : doc :=
    <["createdAt" := now]>
      (<["email" := email]>
         (<["github" := dict_get member_data "github"]>
            (<["linkedin" := dict_get member_data "linkedin"]>
               (<["role" := dict_get member_data "role"]>
                  (<["name" := name]> ∅))))) in
  member_doc <-
    (if file_truthy photo_file
     then
       photo_url <- save_upload_file photo_file ;;
       ret (<["photoUrl" := of_opt_str photo_url]> member_doc)
     else ret member_doc) ;;
  member_doc <-
    (if file_truthy resume_file
     then
       resume_url <- save_upload_file resume_file ;;
       ret (<["resumeUrl" := of_opt_str resume_url]> member_doc)
     else ret member_doc) ;;
  insert_one members_collection member_doc ;;;
  if truthy is_admin then
    if negb (truthy name && truthy email && truthy password) then
      ret (result "error" "Admin user requires a name, email, and password.")
    else
      existing_user <- get_user_by_email email ;;
      if match existing_user with
         | Some u => dict_truthy u
         | None => false
         end
      then ret (result "error" "A user with this email already exists.")
      else
        hashed_password <- get_password_hash password ;;
        now <- utcnow ;;
        let user_doc : doc :=
          <["createdAt" := now]>
            (<["password" := VStr hashed_password]>
               (<["email" := email]> (<["name" := name]> ∅))) in
        insert_one users_collection user_doc ;;;
        ret (result "success" "Admin member and user created successfully")
  else ret (result "success" "Member added successfully").

Definition add_gallery_item (gallery_data : doc)
    (image_file : option UploadFile) : M doc :=
  image_url <- save_upload_file image_file ;;
  let gallery_data :=
    if opt_str_truthy image_url
    then <["imageUrl" := of_opt_str image_url]> gallery_data
    else gallery_data in
  now <- utcnow ;;
  let gallery_data := <["createdAt" := now]> gallery_data in
  insert_one gallery_collection gallery_data ;;;
  ret (result "success" "Gallery item added successfully").

Definition add_blog (blog_data : doc) (image_file : option UploadFile)
  : M doc :=
  image_url <- save_upload_file image_file ;;
  let blog_data :=
    if opt_str_truthy image_url
    then <["imageUrl" := of_opt_str image_url]> blog_data
    else blog_data in
  now <- utcnow ;;
  let blog_data := <["createdAt" := now]> blog_data in
  insert_one blogs_collection blog_data ;;;
  ret (result "success" "Blog post added successfully").

(** ** app.py: authentication gate, login and logout *)

Record Request : Type := mkRequest {
  session : doc;
  url : string
}.

Inductive Response : Type :=
  | RedirectResponse (location : string) (status_code : nat).

Definition HTTP_303_SEE_OTHER : nat := 303.
Definition HTTP_307_TEMPORARY_REDIRECT : nat := 307.

(** [d[k]] *)
Definition dict_item (d : doc) (k : string) : M value :=
  match d !! k with
  | Some v => ret v
  | None => raise (KeyError k)
  end.

Definition opt_dict_truthy (o : option doc) : bool :=
  match o with
  | Some d => dict_truthy d
  | None => false
  end.

Definition get_current_user (request : Request) : M (option doc) :=
  let user_email := dict_get (session request) "user_email" in
  if truthy user_email then
    user <- get_user_by_email user_email ;;
    ret user
  else ret None.

Definition require_login (request : Request) : M doc :=
  user <- get_current_user request ;;
  match (if opt_dict_truthy user then user else None) with
  | Some user => ret user
  | None =>
      let next_url := quote (url request) "" in
      let redirect_url := "/login?next=" +:+ next_url in
      raise (HTTPException HTTP_307_TEMPORARY_REDIRECT redirect_url)
  end.

(** A handler's answer: the response and the session the cookie then carries. *)
Definition handle_login (request : Request) (email password next_url : string)
  : M (Response * doc) :=
  user <- get_user_by_email (VStr email) ;;
  match (if opt_dict_truthy user then user else None) with
  | None =>
      ret (RedirectResponse "/login?error=1" HTTP_303_SEE_OTHER,
           session request)
  | Some user =>
      stored <- dict_item user "password" ;;
      is_password_correct <- verify_password password stored ;;
      if is_password_correct then
        user_email <- dict_item user "email" ;;
        let session1 := <["user_email" := user_email]> (session request) in
        user_name <- dict_item user "name" ;;
        let session2 := <["user_name" := user_name]> session1 in
        if str_truthy next_url && String.prefix "/" next_url then
          ret (RedirectResponse next_url HTTP_303_SEE_OTHER, session2)
        else
          ret (RedirectResponse "/add-project" HTTP_303_SEE_OTHER, session2)
      else
        let error_redirect_url := "/login?error=1" in
        let error_redirect_url :=
          if str_truthy next_url && String.prefix "/" next_url
          then error_redirect_url +:+ "&next=" +:+ quote next_url "/"
          else error_redirect_url in
        ret (RedirectResponse error_redirect_url HTTP_303_SEE_OTHER,
             session request)
  end.

Definition handle_logout (request : Request) : M (Response * doc) :=
  ret (RedirectResponse "/" HTTP_303_SEE_OTHER, (∅ : doc)).

(** ** app.py: string helpers of the route layer *)

(** [s.split(sep)] for a one-character separator: the pieces between the
    separators, one more than there are separators. *)
Fixpoint split_on (sep : ascii) (s : string) : list string :=
  match s with
  | EmptyString => [EmptyString]
  | String c s' =>
      if ascii_eqb c sep then EmptyString :: split_on sep s'
      else
        match split_on sep s' with
        | piece :: pieces => String c piece :: pieces
        | [] => [String c EmptyString]
        end
  end.

Definition chars (codes : list N) : string :=
  fold_right (fun n s => String (ascii_of_N n) s) EmptyString codes.

(** The characters [str.isspace] accepts, as their UTF-8 bytes: U+0009 to
    U+000D, U+001C to U+0020, U+0085, U+00A0, U+1680, U+2000 to U+200A,
    U+2028, U+2029, U+202F, U+205F and U+3000. *)
Definition whitespace : list string :=
  List.map chars
    [[9]; [10]; [11]; [12]; [13]; [28]; [29]; [30]; [31]; [32];
     [194; 133]; [194; 160]; [225; 154; 128];
     [226; 128; 128]; [226; 128; 129]; [226; 128; 130]; [226; 128; 131];
     [226; 128; 132]; [226; 128; 133]; [226; 128; 134]; [226; 128; 135];
     [226; 128; 136]; [226; 128; 137]; [226; 128; 138];
     [226; 128; 168]; [226; 128; 169]; [226; 128; 175];
     [226; 129; 159]; [227; 128; 128]]%N.

(** [s] without the first of [ws] it starts with, if any. *)
Fixpoint drop_leading (ws : list string) (s : string) : option string :=
  match ws with
  | [] => None
  | x :: ws' =>
      if String.prefix x s then Some (drop_str (String.length x) s)
      else drop_leading ws' s
  end.

Fixpoint lstrip_fuel (ws : list string) (fuel : nat) (s : string) : string :=
  match fuel with
  | O => s
  | S fuel' =>
      match drop_leading ws s with
      | Some s' => lstrip_fuel ws fuel' s'
      | None => s
      end
  end.

Fixpoint rev_str (s : string) : string :=
  match s with
  | EmptyString => EmptyString
  | String c s' => rev_str s' +:+ String c EmptyString
  end.

(** [s.strip()]: whitespace taken off both ends. *)
Definition strip (s : string) : string :=
  let left := lstrip_fuel whitespace (String.length s) s in
  rev_str
    (lstrip_fuel (List.map rev_str whitespace) (String.length left)
       (rev_str left)).

(** ** app.py: protected JSON endpoints *)

Definition create_project (request : Request)
    (projectTitle projectDescription techStack linkedinLink githubLink
       : string)
    (projectImage : option UploadFile) : M doc :=
  current_user <- require_login request ;;
  let project_data : doc :=
    <["title" := VStr projectTitle]>
      (<["description" := VStr projectDescription]>
         (<["techStack" := VList (List.map strip (split_on "," techStack))]>
            (<["github" := VStr githubLink]>
               (<["linkedin" := VStr linkedinLink]> ∅)))) in
  add_project project_data projectImage.

Definition create_member (request : Request)
    (fullName role email password linkedin github : string)
    (profileImage resume : option UploadFile) (adminPrivileges : bool)
  : M doc :=
  current_user <- require_login request ;;
  let member_data : doc :=
    <["name" := VStr fullName]>
      (<["role" := VStr role]>
         (<["linkedin" := VStr linkedin]>
            (<["github" := VStr github]>
               (<["email" := VStr email]>
                  (<["password" := VStr password]>
                     (<["isAdmin" := VBool adminPrivileges]> ∅)))))) in
  add_member member_data profileImage resume.

Definition create_gallery_item (request : Request)
    (caption category description : string) (image : option UploadFile)
  : M doc :=
  current_user <- require_login request ;;
  let gallery_data : doc :=
    <["caption" := VStr caption]>
      (<["category" := VStr category]>
         (<["description" := VStr description]> ∅)) in
  add_gallery_item gallery_data image.

Definition create_blog (request : Request)
    (title content date category author readTime tags : string)
    (image : option UploadFile) : M doc :=
  current_user <- require_login request ;;
  let blog_data : doc :=
    <["title" := VStr title]>
      (<["content" := VStr content]>
         (<["date" := VStr date]>
            (<["category" := VStr category]>
               (<["author" := VStr author]>
                  (<["readTime" := VStr (readTime +:+ " min read")]>
                     (<["tags" := VList (List.map strip (split_on "," tags))]>
                        ∅)))))) in
  add_blog blog_data image.

(** ** app.py: public JSON endpoints and the login page *)

Definition get_projects : M (list doc) := get_all_projects.
Definition get_members : M (list doc) := get_all_members.
Definition get_gallery : M (list doc) := get_all_gallery_items.
Definition get_blogs : M (list doc) := get_all_blogs.

(** What a page endpoint answers: a redirect, or a template with the
    [user] and [next_url] of its context. *)
Inductive Page : Type :=
  | PageRedirect (response : Response)
  | TemplateResponse (name : string) (user : option doc)
      (next_url : option string).

Definition serve_login (request : Request) (next : option string) : M Page :=
  user <- get_current_user request ;;
  if opt_dict_truthy user then
    ret (PageRedirect (RedirectResponse "/add-project" HTTP_303_SEE_OTHER))
  else ret (TemplateResponse "login.html" user next).

(** * Specification vocabulary *)

(** What [splitext] calls an extension: nothing, or a dot followed by
    characters that are neither a dot nor a slash. *)
Definition extension_like (e : string) : Prop :=
  e = EmptyString
  \/ exists t, e = String "."%char t
               /\ mem_char "."%char t = false /\ mem_char "/"%char t = false.

(** No file object, no filename, or an empty filename. *)
Definition file_absent (upload_file : option UploadFile) : Prop :=
  upload_file = None
  \/ exists f, upload_file = Some f
               /\ (filename f = None \/ filename f = Some "").

(** The name [save_upload_file] generates in world [w] for [fname]. *)
Definition generated_name (w : World) (fname : string) : string :=
  hex_fixed 32 (entropy (draws w) mod 2 ^ 128)%N +:+ snd (splitext fname).

(** [w'] has the collections, the hasher's log and the ObjectId counter of
    [w]; the disk, the entropy and the clock may have moved on. *)
Record frame (w w' : World) : Prop := mkFrame {
  fr_projects : projects w' = projects w;
  fr_members : members w' = members w;
  fr_gallery : gallery w' = gallery w;
  fr_blogs : blogs w' = blogs w;
  fr_users : users w' = users w;
  fr_hashed : hashed w' = hashed w;
  fr_oids : oids w' = oids w
}.

(** The world after the store took in [d]. *)
Definition stored (c : collection) (d : doc) (w : World) : World :=
  set_documents c (documents c w ++ [<["_id" := VObjectId (oids w)]> d])
    (mkWorld (projects w) (members w) (gallery w) (blogs w) (users w)
       (disk w) (hashed w) (N.succ (oids w)) (draws w) (ticks w)).

(** The admin flag as [add_member] reads it: [pop("isAdmin", False)]. *)
Definition form_admin (member_data : doc) : value :=
  default (VBool false) (member_data !! "isAdmin").

(** What [add_member] does once the member document is in the store. *)
Definition admin_part (is_admin name email password : value) : M doc :=
  if truthy is_admin then
    if negb (truthy name && truthy email && truthy password) then
      ret (result "error" "Admin user requires a name, email, and password.")
    else
      existing_user <- get_user_by_email email ;;
      if opt_dict_truthy existing_user
      then ret (result "error" "A user with this email already exists.")
      else
        hashed_password <- get_password_hash password ;;
        now <- utcnow ;;
        let user_doc : doc :=
          <["createdAt" := now]>
            (<["password" := VStr hashed_password]>
               (<["email" := email]> (<["name" := name]> ∅))) in
        insert_one users_collection user_doc ;;;
        ret (result "success" "Admin member and user created successfully")
  else ret (result "success" "Member added successfully").

(** [admin_part] cut where the source awaits between its lookup of the email
    and its insert of the user document (database.py:179-194). First the
    lookup: the result, when the call is over with it, or nothing when the
    call goes on to create the user. *)
Definition admin_check (is_admin name email password : value)
  : M (option doc) :=
  if truthy is_admin then
    if negb (truthy name && truthy email && truthy password) then
      ret (Some (result "error"
                   "Admin user requires a name, email, and password."))
    else
      existing_user <- get_user_by_email email ;;
      if opt_dict_truthy existing_user
      then ret (Some (result "error" "A user with this email already exists."))
      else ret None
  else ret (Some (result "success" "Member added successfully")).

(** Then the rest: the hash, the clock and the insert, for a call that the
    lookup let through. *)
Definition admin_finish (name email password : value) (decided : option doc)
  : M doc :=
  match decided with
  | Some r => ret r
  | None =>
      hashed_password <- get_password_hash password ;;
      now <- utcnow ;;
      let user_doc : doc :=
        <["createdAt" := now]>
          (<["password" := VStr hashed_password]>
             (<["email" := email]> (<["name" := name]> ∅))) in
      insert_one users_collection user_doc ;;;
      ret (result "success" "Admin member and user created successfully")
  end.

(** Two calls scheduled so that both lookups are answered before either
    call inserts its user document. *)
Definition lookups_first (is_admin1 name1 email1 password1 : value)
    (is_admin2 name2 email2 password2 : value) : M (doc * doc) :=
  decided1 <- admin_check is_admin1 name1 email1 password1 ;;
  decided2 <- admin_check is_admin2 name2 email2 password2 ;;
  result1 <- admin_finish name1 email1 password1 decided1 ;;
  result2 <- admin_finish name2 email2 password2 decided2 ;;
  ret (result1, result2).

(** The slot an optional file leaves in the member document. *)
Definition file_slot (upload_file : option UploadFile) (slot : option value)
  : Prop :=
  match upload_file with
  | None => slot = None
  | Some _ =>
      (file_absent upload_file /\ slot = Some VNone)
      \/ (~ file_absent upload_file
          /\ exists n, slot = Some (VStr ("/" +:+ UPLOAD_DIR +:+ "/" +:+ n)))
  end.

Definition member_keys : list string :=
  ["name"; "role"; "linkedin"; "github"; "email"; "createdAt";
   "photoUrl"; "resumeUrl"].

Record member_shape (member_data : doc)
    (photo_file resume_file : option UploadFile) (d : doc) : Prop := {
  ms_name : d !! "name" = Some (dict_get member_data "name");
  ms_role : d !! "role" = Some (dict_get member_data "role");
  ms_linkedin : d !! "linkedin" = Some (dict_get member_data "linkedin");
  ms_github : d !! "github" = Some (dict_get member_data "github");
  ms_email : d !! "email" = Some (dict_get member_data "email");
  ms_created : exists t, d !! "createdAt" = Some (VDate t);
  ms_photo : file_slot photo_file (d !! "photoUrl");
  ms_resume : file_slot resume_file (d !! "resumeUrl");
  ms_only : forall k, k ∉ member_keys -> d !! k = None
}.

(** A user document with this email is in the store. *)
Definition user_exists (w : World) (email : value) : Prop :=
  exists u, u ∈ users w /\ u !! "email" = Some email.

Definition error_incomplete : doc :=
  result "error" "Admin user requires a name, email, and password.".
Definition error_duplicate : doc :=
  result "error" "A user with this email already exists.".
Definition success_admin : doc :=
  result "success" "Admin member and user created successfully".
Definition success_member : doc :=
  result "success" "Member added successfully".

(** The user document [admin_part] builds in world [w]. *)
Definition new_user_doc (name email : value) (p : string) (w : World) : doc :=
  <["createdAt" := VDate (clock (ticks w))]>
    (<["password" := VStr (bcrypt_hash (entropy (draws w)) p)]>
       (<["email" := email]> (<["name" := name]> ∅))).

(** The world in which that document reaches the store: one draw for the
    salt, one entry in the hasher's log, one reading of the clock. *)
Definition after_hash (p : string) (w : World) : World :=
  mkWorld (projects w) (members w) (gallery w) (blogs w) (users w)
    (disk w) (p :: hashed w) (oids w) (S (draws w)) (S (ticks w)).

Definition user_keys : list string :=
  ["name"; "email"; "password"; "createdAt"; "_id"].

(** The document an image add hands to the store, given the form's fields. *)
Record image_shape (data : doc) (image_file : option UploadFile) (d : doc)
  : Prop := {
  is_created : exists t, d !! "createdAt" = Some (VDate t);
  is_absent : file_absent image_file -> d !! "imageUrl" = data !! "imageUrl";
  is_present :
    ~ file_absent image_file ->
    exists n, d !! "imageUrl" = Some (VStr ("/" +:+ UPLOAD_DIR +:+ "/" +:+ n));
  is_other :
    forall k, k <> "imageUrl" -> k <> "createdAt" -> d !! k = data !! k
}.

(** A computation keeps [P] when the world it leaves satisfies [P] whenever
    the world it started in did, whether it returned or raised. *)
Definition preserves (P : World -> Prop) {A} (m : M A) : Prop :=
  forall w, P w -> P (snd (m w)).

(** Every document of every collection satisfies [Q]. *)
Definition all_docs (Q : collection -> doc -> Prop) (w : World) : Prop :=
  forall c d, d ∈ documents c w -> Q c d.

(** [Q] holds of any document of [c] once it carries an identifier. *)
Definition admits (Q : collection -> doc -> Prop) (c : collection) : Prop :=
  forall (d : doc) v, Q c (<["_id" := v]> d).

(** [Q] holds of the user documents [add_member] builds. *)
Definition admits_new_user (Q : collection -> doc -> Prop) : Prop :=
  forall v now h name email,
    Q users_collection
      (<["_id" := v]>
         (<["createdAt" := now]>
            (<["password" := VStr h]>
               (<["email" := email]> (<["name" := name]> ∅))))).

(** Every stored document carries the store's identifier. *)
Definition store_wf : World -> Prop :=
  all_docs (fun _ d => is_Some (d !! "_id")).

(** A user document has a name, an email and a digest. *)
Definition user_record (d : doc) : Prop :=
  is_Some (d !! "name") /\ is_Some (d !! "email")
  /\ exists h, d !! "password" = Some (VStr h).

Definition users_wf : World -> Prop :=
  all_docs (fun c d => c = users_collection -> user_record d).

(** The store right after the database is created. *)
Definition empty_world : World :=
  mkWorld [] [] [] [] [] ∅ [] 0%N 0 0.

(** The read operation of each collection. *)
Definition get_all (c : collection) : M (list doc) :=
  match c with
  | projects_collection => get_all_projects
  | members_collection => get_all_members
  | gallery_collection => get_all_gallery_items
  | blogs_collection => get_all_blogs
  | users_collection => get_all_users
  end.

(** [d] is the stored document [d0] with ["_id"] taken out and its string
    form put under ["id"]. *)
Definition public_of (d0 d : doc) : Prop :=
  exists v,
    d0 !! "_id" = Some v
    /\ d = delete "_id" (<["id" := VStr (py_str v)]> d0)
    /\ d !! "_id" = None
    /\ d !! "id" = Some (VStr (py_str v)).

(** [after] is [before] followed by one item that has no ["_id"] and whose
    ["id"] is a string of 24 hexadecimal digits. *)
Definition added_item_listed (before after : list doc) : Prop :=
  exists (item : doc) s,
    after = (before ++ [item])%list
    /\ item !! "_id" = None
    /\ item !! "id" = Some (VStr s)
    /\ String.length s = 24 /\ string_forall is_hex s = true.

(** Running [m] from [w] adds one item to what reading [c] lists. *)
Definition lists_new_item {A} (c : collection) (m : M A) (w : World)
    (r : outcome A) : Prop :=
  exists w' before after,
    m w = (r, w')
    /\ get_all c w = (Ok before, w)
    /\ get_all c w' = (Ok after, w')
    /\ added_item_listed before after.

Definition login_redirect (request : Request) : exn :=
  HTTPException HTTP_307_TEMPORARY_REDIRECT
    ("/login?next=" +:+ quote (url request) "").

(** What [quote] with no safe characters leaves: unreserved characters and
    percent signs. *)
Definition url_encoded_char (c : ascii) : bool :=
  always_safe c || ascii_eqb c "%"%char.

(** The return-to URL is one the handler will redirect to. *)
Definition relative_url (next_url : string) : bool :=
  str_truthy next_url && String.prefix "/" next_url.

(** [needle] occurs in [hay]. *)
Fixpoint contains (needle hay : string) : bool :=
  String.prefix needle hay
  || match hay with
     | EmptyString => false
     | String _ hay' => contains needle hay'
     end.

(** The location carries the return-to URL as its [next] parameter. *)
Definition return_to_preserved (location next_url : string) : Prop :=
  contains ("next=" +:+ quote next_url "/") location = true.

(** The location is the login page with the error flag. *)
Definition login_error_page (location : string) : Prop :=
  String.prefix "/login?error=1" location = true.

(** The password does not verify against the digest of the user found. *)
Definition password_mismatch (email password : string) (w : World) : Prop :=
  exists u digest,
    get_user_by_email (VStr email) w = (Ok (Some u), w)
    /\ u !! "password" = Some digest
    /\ verify_password password digest w = (Ok false, w).

(** No user for the email, or the password does not verify. *)
Definition login_fails (email password : string) (w : World) : Prop :=
  get_user_by_email (VStr email) w = (Ok None, w)
  \/ password_mismatch email password w.

(** The failed-login sentence of the specification, as it is written. *)
Definition login_failure_keeps_return_to (request : Request)
    (email password next_url : string) (w : World) : Prop :=
  login_fails email password w ->
  exists location,
    handle_login request email password next_url w
    = (Ok (RedirectResponse location HTTP_303_SEE_OTHER, session request), w)
    /\ login_error_page location
    /\ return_to_preserved location next_url.

(** ** What a computation may change *)

(** Every path whose content differs between [w] and [w'] is a file
    directly inside the upload directory. *)
Definition confined (w w' : World) : Prop :=
  forall path,
    disk w' !! path <> disk w !! path ->
    exists name,
      path = UPLOAD_DIR +:+ "/" +:+ name /\ mem_char "/"%char name = false.

(** From [w] to [w']: every collection kept what it had, in order, and may
    have gained documents at the end; collections outside [touched] are
    the same; the hasher's log is the same unless [hashes]; and the disk
    changed inside the upload directory only. *)
Record effects (touched : collection -> bool) (hashes : bool)
    (w w' : World) : Prop := mkEffects {
  ef_grows : forall c, documents c w `prefix_of` documents c w';
  ef_only : forall c, touched c = false -> documents c w' = documents c w;
  ef_hashed : hashes = false -> hashed w' = hashed w;
  ef_disk : confined w w'
}.

(** [m] relates the world it starts in to the one it leaves by [R], whether
    it returns or raises. *)
Definition steps (R : World -> World -> Prop) {A} (m : M A) : Prop :=
  forall w, R w (snd (m w)).

Definition only (cs : list collection) (c : collection) : bool :=
  bool_decide (c ∈ cs).

(** No two user documents have the same email. *)
Definition distinct_emails (w : World) : Prop :=
  NoDup (List.map (fun u : doc => dict_get u "email") (users w)).

(** No user document matches the email. *)
Definition email_unused (w : World) (email : value) : Prop :=
  forall u, u ∈ users w -> matches "email" email u = false.

(** The user document [add_member] stores for a new administrator. *)
Definition admin_user_doc (oid : N) (name email : value) (digest : string)
    (t : Z) : doc :=
  <["_id" := VObjectId oid]>
    (<["createdAt" := VDate t]>
       (<["password" := VStr digest]>
          (<["email" := email]> (<["name" := name]> ∅)))).

(** The session a successful login leaves. *)
Definition logged_in (request : Request) (user_email user_name : value) : doc :=
  <["user_name" := user_name]>
    (<["user_email" := user_email]> (session request)).

(** Where a successful login redirects. *)
Definition login_target (next_url : string) : string :=
  if relative_url next_url then next_url else "/add-project".

Fixpoint count_char (c : ascii) (s : string) : nat :=
  match s with
  | EmptyString => 0
  | String a s' => (if ascii_eqb a c then 1 else 0) + count_char c s'
  end.

(** [s] neither begins nor ends with a whitespace character. *)
Definition trimmed (s : string) : Prop :=
  drop_leading whitespace s = None
  /\ drop_leading (List.map rev_str whitespace) (rev_str s) = None.

(** The list a comma-separated form field is stored as. *)
Definition pieces (field : string) : list string :=
  List.map strip (split_on "," field).

(** How a document added from [data] and [image] reads back: no ["_id"],
    the identifier [oid] as 24 hexadecimal digits under ["id"], a creation
    time, the image URL when there is an image, and every other field of
    [data]. *)
Record listed_item (data : doc) (image : option UploadFile) (oid : N)
    (item : doc) : Prop := {
  li_internal : item !! "_id" = None;
  li_id : item !! "id" = Some (VStr (hex_fixed 24 oid));
  li_created : exists t, item !! "createdAt" = Some (VDate t);
  li_absent : file_absent image -> item !! "imageUrl" = data !! "imageUrl";
  li_present :
    ~ file_absent image ->
    exists n,
      item !! "imageUrl" = Some (VStr ("/" +:+ UPLOAD_DIR +:+ "/" +:+ n));
  li_fields :
    forall k, k ∉ ["_id"; "id"; "imageUrl"; "createdAt"] ->
              item !! k = data !! k
}.


End Model.

(** ** Sample data *)

(** The form of an administrator, as [create_member] assembles it. *)
Definition ada_form : doc :=
  <["name" := VStr "Ada"]>
    (<["role" := VStr "Lead"]>
       (<["linkedin" := VStr ""]>
          (<["github" := VStr "https://github.com/ada"]>
             (<["email" := VStr "ada@hive.org"]>
                (<["password" := VStr "s3cret"]>
                   (<["isAdmin" := VBool true]> ∅)))))).

(** The same form with the password left empty. *)
Definition anon_form : doc := <["password" := VStr ""]> ada_form.

(** The store after Ada was added to the empty one. *)
Definition ada_world : World :=
  snd (add_member (H := toy_platform) ada_form None None empty_world).

(** The user document a lookup of Ada's email returns. *)
Definition ada_user : doc :=
  match fst (get_user_by_email (H := toy_platform) (VStr "ada@hive.org")
               ada_world) with
  | Ok (Some u) => u
  | _ => ∅
  end.

Definition portrait : UploadFile :=
  mkUploadFile (Some "me.final.PNG") [Byte.x89; Byte.x50; Byte.x4e; Byte.x47].

Definition project_form : doc :=
  <["title" := VStr "Hive"]>
    (<["description" := VStr "A swarm"]>
       (<["techStack" := VList ["rocq"; "python"]]> ∅)).

Definition protected_request : Request :=
  mkRequest ∅ "http://testserver/add-project?tab=1".

(** A second administrator. *)
Definition bob_form : doc :=
  <["name" := VStr "Bob"]>
    (<["email" := VStr "bob@hive.org"]>
       (<["password" := VStr "hunter2"]> ada_form)).

(** Ada's form without the admin flag. *)
Definition plain_form : doc := delete "isAdmin" ada_form.

(** A request carrying the session Ada's login leaves. *)
Definition ada_request : Request :=
  mkRequest (logged_in protected_request (VStr "ada@hive.org") (VStr "Ada"))
    "http://testserver/api/projects".

(** * Properties *)

Section Properties.

Context `{Platform}.

(** ** Strings *)

Example splitext_samples :
  splitext "archive.tar.gz" = ("archive.tar", ".gz")
  /\ splitext ".bashrc" = (".bashrc", "")
  /\ splitext "a/b.c/d" = ("a/b.c/d", "")
  /\ splitext "photo." = ("photo", ".").
Proof. by vm_compute. Qed.

Example quote_samples :
  quote "http://testserver/add-blog?x=1" ""
  = "http%3A%2F%2Ftestserver%2Fadd-blog%3Fx%3D1"
  /\ quote "/add-blog?x=1 2" "/" = "/add-blog%3Fx%3D1%202".
Proof. by vm_compute. Qed.

Example path_join_samples :
  path_join "uploads" "a.png" = "uploads/a.png"
  /\ path_join "uploads" "/etc/passwd" = "/etc/passwd"
  /\ path_join "uploads/" "a.png" = "uploads/a.png".
Proof. by vm_compute. Qed.

Lemma ascii_eqb_eq (a b : ascii) : ascii_eqb a b = true <-> a = b.
Proof. unfold ascii_eqb. apply Ascii.eqb_eq. Qed.

Lemma append_cons (x : ascii) (a b : string) :
  String x a +:+ b = String x (a +:+ b).
Proof. reflexivity. Qed.

Lemma append_empty_r (a : string) : a +:+ "" = a.
Proof. induction a as [|x a IH]; [done|]. by rewrite append_cons, IH. Qed.

Lemma rfind_lower (s : string) (c : ascii) : (-1 <= rfind s c)%Z.
Proof.
  induction s as [|a s IH]; simpl; [lia|].
  destruct (0 <=? rfind s c)%Z eqn:E; [apply Z.leb_le in E; lia|].
  destruct (ascii_eqb a c); lia.
Qed.

Lemma rfind_absent (s : string) (c : ascii) :
  mem_char c s = false -> rfind s c = (-1)%Z.
Proof.
  induction s as [|a s IH]; simpl; [done|].
  intros [Ha Hs]%orb_false_iff.
  rewrite (IH Hs), Ha. done.
Qed.

Lemma rfind_present (s : string) (c : ascii) :
  mem_char c s = true -> (0 <= rfind s c)%Z.
Proof.
  induction s as [|a s IH]; simpl; [done|].
  destruct (0 <=? rfind s c)%Z eqn:E.
  - apply Z.leb_le in E. lia.
  - intros [Ha|Hs]%orb_true_iff.
    + rewrite Ha. lia.
    + apply IH in Hs. apply Z.leb_gt in E. lia.
Qed.

Lemma rfind_app (a b : string) (c : ascii) :
  rfind (a +:+ b) c =
  if (0 <=? rfind b c)%Z then (Z.of_nat (String.length a) + rfind b c)%Z
  else rfind a c.
Proof.
  induction a as [|x a IH].
  - change (EmptyString +:+ b) with b. simpl String.length. simpl (rfind "" c).
    destruct (0 <=? rfind b c)%Z eqn:E; [lia|].
    apply Z.leb_gt in E. pose proof (rfind_lower b c). lia.
  - change (String x a +:+ b) with (String x (a +:+ b)).
    simpl rfind. rewrite IH. simpl String.length.
    destruct (0 <=? rfind b c)%Z eqn:E.
    + apply Z.leb_le in E.
      replace (0 <=? Z.of_nat (String.length a) + rfind b c)%Z with true
        by (symmetry; apply Z.leb_le; lia).
      lia.
    + done.
Qed.

Lemma take_str_app (a b : string) : take_str (String.length a) (a +:+ b) = a.
Proof. induction a as [|x a IH]; simpl; [by destruct b|by rewrite IH]. Qed.

Lemma drop_str_app (a b : string) : drop_str (String.length a) (a +:+ b) = b.
Proof. induction a as [|x a IH]; simpl; [by destruct b|done]. Qed.

Lemma take_drop_str (i : nat) (s : string) : take_str i s +:+ drop_str i s = s.
Proof.
  revert s; induction i as [|i IH]; intros [|a s]; try done.
  change (String a (take_str i s +:+ drop_str i s) = String a s).
  by rewrite IH.
Qed.

Lemma take_str_length (i : nat) (s : string) :
  i <= String.length s -> String.length (take_str i s) = i.
Proof.
  revert s; induction i as [|i IH]; intros [|a s]; simpl; try lia.
  intros Hi. rewrite IH; lia.
Qed.

Lemma mem_char_app (c : ascii) (a b : string) :
  mem_char c (a +:+ b) = mem_char c a || mem_char c b.
Proof.
  induction a as [|x a IH]; simpl; [done|]. rewrite IH. by rewrite orb_assoc.
Qed.

Lemma rfind_upper (s : string) (c : ascii) :
  (rfind s c < Z.of_nat (String.length s))%Z.
Proof.
  induction s as [|a s IH]; simpl rfind; simpl String.length; [lia|].
  destruct (0 <=? rfind s c)%Z; [lia|]. destruct (ascii_eqb a c); lia.
Qed.

(** Where the last occurrence is: the character, and none after it. *)
Lemma rfind_split (s : string) (c : ascii) :
  (0 <= rfind s c)%Z ->
  exists t, drop_str (Z.to_nat (rfind s c)) s = String c t
            /\ mem_char c t = false.
Proof.
  induction s as [|a s IH]; simpl rfind; [lia|].
  destruct (0 <=? rfind s c)%Z eqn:E.
  - apply Z.leb_le in E. intros _.
    destruct (IH E) as (t & Ht & Hc). exists t. split; [|done].
    replace (Z.to_nat (rfind s c + 1)) with (S (Z.to_nat (rfind s c))) by lia.
    done.
  - destruct (ascii_eqb a c) eqn:Ea; [|lia]. intros _.
    apply ascii_eqb_eq in Ea. subst a. exists s. split; [done|].
    apply Z.leb_gt in E.
    destruct (mem_char c s) eqn:Hm; [|done].
    apply rfind_present in Hm. lia.
Qed.

Lemma splitext_extension (p : string) : extension_like (snd (splitext p)).
Proof.
  unfold splitext.
  destruct (rfind p "/" <? rfind p ".")%Z eqn:E; [|by left].
  destruct (has_stem _ _ _); [|by left].
  apply Z.ltb_lt in E. pose proof (rfind_lower p "/"%char) as Hlo.
  assert (0 <= rfind p ".")%Z as Hdot by lia.
  destruct (rfind_split p "."%char Hdot) as (t & Ht & Hnodot).
  simpl. right. exists t. split; [done|]. split; [done|].
  destruct (mem_char "/" t) eqn:Hs; [exfalso|done].
  pose proof (take_drop_str (Z.to_nat (rfind p ".")) p) as Hp.
  rewrite Ht in Hp.
  assert (rfind p "/" =
          rfind (take_str (Z.to_nat (rfind p ".")) p +:+ String "." t) "/")
    as Hr by (by rewrite Hp).
  rewrite rfind_app in Hr.
  assert (0 <= rfind (String "."%char t) "/")%Z as Hpos.
  { apply rfind_present. simpl. by rewrite Hs. }
  replace (0 <=? rfind (String "." t) "/")%Z with true in Hr
    by (symmetry; by apply Z.leb_le).
  assert (1 <= rfind (String "."%char t) "/")%Z as H1.
  { simpl rfind. apply rfind_present in Hs.
    replace (0 <=? rfind t "/")%Z with true by (symmetry; by apply Z.leb_le).
    lia. }
  rewrite take_str_length in Hr.
  - lia.
  - pose proof (rfind_upper p "."%char). lia.
Qed.

Lemma hex_digit_is_hex (d : N) : is_hex (hex_digit d) = true.
Proof.
  destruct d as [|p]; [reflexivity|].
  do 4 (try destruct p as [p|p|]); reflexivity.
Qed.

Lemma hex_acc_is_hex (k : nat) (n : N) (acc : string) :
  string_forall is_hex acc = true ->
  string_forall is_hex (hex_acc k n acc) = true.
Proof.
  revert n acc; induction k as [|k IH]; intros n acc Hacc; simpl; [done|].
  apply IH. simpl. by rewrite hex_digit_is_hex, Hacc.
Qed.

Lemma hex_acc_length (k : nat) (n : N) (acc : string) :
  String.length (hex_acc k n acc) = k + String.length acc.
Proof.
  revert n acc; induction k as [|k IH]; intros n acc; simpl; [done|].
  rewrite IH. simpl. lia.
Qed.

Lemma hex_fixed_is_hex (k : nat) (n : N) :
  string_forall is_hex (hex_fixed k n) = true.
Proof. by apply hex_acc_is_hex. Qed.

Lemma hex_fixed_length (k : nat) (n : N) : String.length (hex_fixed k n) = k.
Proof. unfold hex_fixed. rewrite hex_acc_length. simpl. lia. Qed.

Lemma is_hex_not (c x : ascii) :
  is_hex x = false -> is_hex c = true -> ascii_eqb c x = false.
Proof.
  intros Hx Hc. destruct (ascii_eqb c x) eqn:E; [|done].
  apply ascii_eqb_eq in E. congruence.
Qed.

Lemma hex_string_avoids (x : ascii) (h : string) :
  is_hex x = false -> string_forall is_hex h = true -> mem_char x h = false.
Proof.
  intros Hx. induction h as [|c h IH]; simpl; [done|].
  intros [Hc Hh]%andb_true_iff.
  by rewrite (is_hex_not c x Hx Hc), (IH Hh).
Qed.

(** A hexadecimal stem followed by an extension splits back into the two. *)
Lemma splitext_generated (h e : string) :
  string_forall is_hex h = true ->
  h <> EmptyString ->
  extension_like e ->
  splitext (h +:+ e) = (h, e).
Proof.
  intros Hh Hne He.
  pose proof (hex_string_avoids "."%char h eq_refl Hh) as Hdot.
  pose proof (hex_string_avoids "/"%char h eq_refl Hh) as Hsep.
  unfold splitext.
  destruct He as [->|(t & -> & Htdot & Htsep)].
  - rewrite append_empty_r.
    by rewrite (rfind_absent h _ Hdot), (rfind_absent h _ Hsep).
  - assert (rfind (h +:+ String "." t) "/" = (-1)%Z) as ->.
    { apply rfind_absent. rewrite mem_char_app. simpl. by rewrite Hsep, Htsep. }
    assert (rfind (h +:+ String "." t) "." = Z.of_nat (String.length h)) as ->.
    { rewrite rfind_app. simpl rfind. rewrite (rfind_absent t _ Htdot).
      simpl. lia. }
    replace (-1 <? Z.of_nat (String.length h))%Z with true
      by (symmetry; apply Z.ltb_lt; lia).
    replace (Z.to_nat (-1 + 1)) with 0 by lia.
    replace (Z.to_nat (Z.of_nat (String.length h) - (-1 + 1)))
      with (String.length h) by lia.
    rewrite Nat2Z.id, take_str_app, drop_str_app.
    destruct h as [|c h]; [done|].
    simpl in Hh. apply andb_true_iff in Hh as [Hc _].
    simpl. by rewrite (is_hex_not c "."%char eq_refl Hc).
Qed.

(** ** File store *)

Lemma str_truthy_true (s : string) : s <> "" -> str_truthy s = true.
Proof.
  intros Hs. unfold str_truthy. apply negb_true_iff.
  by apply String.eqb_neq.
Qed.

Lemma prefix_slash_hex (h e : string) :
  string_forall is_hex h = true -> h <> "" ->
  String.prefix "/" (h +:+ e) = false.
Proof.
  intros Hh Hne. destruct h as [|c h]; [done|].
  simpl in Hh. apply andb_true_iff in Hh as [Hc _].
  rewrite append_cons. cbn [String.prefix].
  destruct (ascii_dec "/" c) as [<-|]; [by vm_compute in Hc|done].
Qed.

Lemma hex_fixed_nonempty (k : nat) (n : N) : hex_fixed (S k) n <> "".
Proof.
  intros E. pose proof (hex_fixed_length (S k) n) as Hl.
  rewrite E in Hl. discriminate.
Qed.

Lemma path_join_upload (k : nat) (n : N) (e : string) :
  path_join UPLOAD_DIR (hex_fixed (S k) n +:+ e)
  = UPLOAD_DIR +:+ "/" +:+ hex_fixed (S k) n +:+ e.
Proof.
  unfold path_join.
  rewrite prefix_slash_hex
    by (apply hex_fixed_is_hex || apply hex_fixed_nonempty).
  reflexivity.
Qed.

(** An upload with a non-empty filename: one draw, one file written. *)
Lemma save_upload_file_writes (f : UploadFile) (fname : string) (w : World) :
  filename f = Some fname -> fname <> "" ->
  save_upload_file (Some f) w
  = (Ok (Some ("/" +:+ UPLOAD_DIR +:+ "/" +:+ generated_name w fname)),
     mkWorld (projects w) (members w) (gallery w) (blogs w) (users w)
       (<[UPLOAD_DIR +:+ "/" +:+ generated_name w fname := content f]>
          (disk w))
       (hashed w) (oids w) (S (draws w)) (ticks w)).
Proof.
  intros Hf Hne.
  unfold save_upload_file. rewrite Hf, (str_truthy_true _ Hne).
  cbn [negb]. unfold bind at 1, uuid4_hex. cbn [bind draw ret].
  rewrite path_join_upload. reflexivity.
Qed.

(** C7. [save_upload_file] returns [None] and leaves the world as it is when
    the file is absent or its filename is empty; otherwise it draws one
    random 128-bit token, writes the whole content at
    [uploads/<32 hex digits><extension of the original filename>] and
    returns that path with a leading slash; the generated name has the
    extension of the original filename. *)
Theorem save_upload_file_spec (upload_file : option UploadFile) (w : World) :
  (file_absent upload_file -> save_upload_file upload_file w = (Ok None, w))
  /\ (forall f fname,
        upload_file = Some f -> filename f = Some fname -> fname <> "" ->
        save_upload_file upload_file w
        = (Ok (Some ("/" +:+ UPLOAD_DIR +:+ "/" +:+ generated_name w fname)),
           mkWorld (projects w) (members w) (gallery w) (blogs w) (users w)
             (<[UPLOAD_DIR +:+ "/" +:+ generated_name w fname := content f]>
                (disk w))
             (hashed w) (oids w) (S (draws w)) (ticks w))
        /\ snd (splitext (generated_name w fname)) = snd (splitext fname)).
Proof.
  split.
  - intros [->|(f & -> & [Hf|Hf])]; simpl; [done|by rewrite Hf..].
  - intros f fname -> Hf Hne. split; [by apply save_upload_file_writes|].
    unfold generated_name. rewrite splitext_generated; [done|..].
    + apply hex_fixed_is_hex.
    + apply hex_fixed_nonempty.
    + apply splitext_extension.
Qed.

(** ** Frames: what a step leaves alone *)

Lemma frame_refl (w : World) : frame w w.
Proof. by split. Qed.

Lemma frame_trans (w1 w2 w3 : World) : frame w1 w2 -> frame w2 w3 -> frame w1 w3.
Proof. intros [] []. split; congruence. Qed.

Lemma frame_documents (c : collection) (w w' : World) :
  frame w w' -> documents c w' = documents c w.
Proof. intros []. by destruct c. Qed.

Lemma utcnow_frame (w : World) :
  exists t w', utcnow w = (Ok (VDate t), w') /\ frame w w'.
Proof. eexists _, _. split; [reflexivity|by split]. Qed.

(** [save_upload_file] always returns; it answers [None] exactly for an absent
    file, and otherwise a path under the public prefix. *)
Lemma save_upload_file_frame (upload_file : option UploadFile) (w : World) :
  exists r w',
    save_upload_file upload_file w = (Ok r, w') /\ frame w w'
    /\ match r with
       | None => file_absent upload_file
       | Some u =>
           ~ file_absent upload_file
           /\ exists n, u = "/" +:+ UPLOAD_DIR +:+ "/" +:+ n
       end.
Proof.
  destruct upload_file as [f|].
  2:{ exists None, w. split; [done|]. split; [apply frame_refl|by left]. }
  destruct (filename f) as [fname|] eqn:Hf.
  2:{ exists None, w. simpl. rewrite Hf. split; [done|].
      split; [apply frame_refl|]. right. exists f. auto. }
  destruct (decide (fname = "")) as [->|Hne].
  { exists None, w. simpl. rewrite Hf. split; [done|].
    split; [apply frame_refl|]. right. exists f. auto. }
  eexists _, _. split; [by apply save_upload_file_writes|].
  split; [by split|]. split.
  - intros [?|(f' & [= <-] & [?|?])]; congruence.
  - by eexists.
Qed.

Lemma opt_str_truthy_upload (n : string) :
  opt_str_truthy (Some ("/" +:+ UPLOAD_DIR +:+ "/" +:+ n)) = true.
Proof. reflexivity. Qed.

(** ** Document store *)

Lemma documents_set_eq (c : collection) (l : list doc) (w : World) :
  documents c (set_documents c l w) = l.
Proof. by destruct c. Qed.

Lemma documents_set_ne (c c' : collection) (l : list doc) (w : World) :
  c <> c' -> documents c' (set_documents c l w) = documents c' w.
Proof. by destruct c, c'. Qed.

Lemma insert_one_fresh (c : collection) (d : doc) (w : World) :
  d !! "_id" = None -> insert_one c d w = (Ok tt, stored c d w).
Proof.
  intros Hd. unfold insert_one. rewrite Hd. unfold stored. by destruct c.
Qed.

Lemma stored_documents_eq (c : collection) (d : doc) (w : World) :
  documents c (stored c d w)
  = (documents c w ++ [<["_id" := VObjectId (oids w)]> d])%list.
Proof. by destruct c. Qed.

Lemma stored_documents_ne (c c' : collection) (d : doc) (w : World) :
  c <> c' -> documents c' (stored c d w) = documents c' w.
Proof. by destruct c, c'. Qed.

Lemma stored_hashed (c : collection) (d : doc) (w : World) :
  hashed (stored c d w) = hashed w.
Proof. by destruct c. Qed.

Lemma stored_disk (c : collection) (d : doc) (w : World) :
  disk (stored c d w) = disk w.
Proof. by destruct c. Qed.

(** ** Reads *)

Lemma mongo_id_serializer_no_internal (d : doc) :
  d !! "_id" = None -> mongo_id_serializer d = d.
Proof. intros Hd. unfold mongo_id_serializer. by rewrite Hd. Qed.

Lemma mongo_id_serializer_internal (d : doc) : mongo_id_serializer d !! "_id" = None.
Proof.
  unfold mongo_id_serializer. destruct (d !! "_id") eqn:E; [|done].
  apply lookup_delete_eq.
Qed.

Lemma mongo_id_serializer_public (d : doc) (v : value) :
  d !! "_id" = Some v -> mongo_id_serializer d !! "id" = Some (VStr (py_str v)).
Proof.
  intros E. unfold mongo_id_serializer. rewrite E.
  rewrite lookup_delete_ne by done. apply lookup_insert_eq.
Qed.

Lemma mongo_id_serializer_other (d : doc) (k : string) :
  k <> "_id" -> k <> "id" -> mongo_id_serializer d !! k = d !! k.
Proof.
  intros H1 H2. unfold mongo_id_serializer. destruct (d !! "_id"); [|done].
  rewrite lookup_delete_ne by done. by rewrite lookup_insert_ne.
Qed.

Lemma dict_truthy_lookup (d : doc) (k : string) (v : value) :
  d !! k = Some v -> dict_truthy d = true.
Proof.
  intros E. unfold dict_truthy. apply negb_true_iff, bool_decide_eq_false.
  intros ->. by rewrite lookup_empty in E.
Qed.

Lemma mongo_id_serializer_truthy (d : doc) :
  dict_truthy d = true -> dict_truthy (mongo_id_serializer d) = true.
Proof.
  intros Hd. destruct (d !! "_id") as [v|] eqn:E.
  - eapply dict_truthy_lookup. by apply mongo_id_serializer_public.
  - by rewrite mongo_id_serializer_no_internal.
Qed.

(** A document matched on a value other than [None] has the field. *)
Lemma matches_field (k : string) (v : value) (d : doc) :
  v <> VNone -> matches k v d = true -> is_Some (d !! k).
Proof.
  intros Hv. unfold matches. destruct (d !! k); [eauto|].
  intros Hm. apply bool_decide_eq_true in Hm. done.
Qed.

Lemma truthy_not_none (v : value) : truthy v = true -> v <> VNone.
Proof. by intros Hv ->. Qed.

(** [get_user_by_email] reads only: it returns, and the world is as before. *)
Lemma get_user_by_email_run (email : value) (w : World) :
  get_user_by_email email w
  = (Ok (match List.find (matches "email" email) (users w) with
         | Some u =>
             if dict_truthy u then Some (mongo_id_serializer u) else None
         | None => None
         end), w).
Proof.
  unfold get_user_by_email, bind, find_one. simpl.
  destruct (List.find _ _) as [u|]; [|done]. by destruct (dict_truthy u).
Qed.

(** With a query other than [None], the lookup misses exactly when no user
    document matches, and a hit is a non-empty dict. *)
Lemma get_user_by_email_hit (email : value) (w : World) (u : doc) :
  email <> VNone ->
  List.find (matches "email" email) (users w) = Some u ->
  get_user_by_email email w = (Ok (Some (mongo_id_serializer u)), w)
  /\ dict_truthy (mongo_id_serializer u) = true.
Proof.
  intros Hv Hf. rewrite get_user_by_email_run, Hf.
  apply find_some in Hf as [_ Hm].
  destruct (matches_field _ _ _ Hv Hm) as [x Hx].
  pose proof (dict_truthy_lookup _ _ _ Hx) as Ht. rewrite Ht.
  split; [done|]. by apply mongo_id_serializer_truthy.
Qed.

Lemma get_user_by_email_miss (email : value) (w : World) :
  List.find (matches "email" email) (users w) = None ->
  get_user_by_email email w = (Ok None, w).
Proof. intros Hf. by rewrite get_user_by_email_run, Hf. Qed.

(** ** add_member *)

Lemma dict_get_delete_ne (d : doc) (k k' : string) :
  k <> k' -> dict_get (delete k' d) k = dict_get d k.
Proof. intros Hk. unfold dict_get. by rewrite lookup_delete_ne. Qed.

Lemma internal_not_member_key : "_id" ∉ member_keys.
Proof. apply (bool_decide_unpack _). by vm_compute. Qed.

Lemma file_slot_saved (upload_file : option UploadFile) (r : option string)
    (u : UploadFile) :
  upload_file = Some u ->
  match r with
  | None => file_absent upload_file
  | Some p =>
      ~ file_absent upload_file
      /\ exists n, p = "/" +:+ UPLOAD_DIR +:+ "/" +:+ n
  end ->
  file_slot upload_file (Some (of_opt_str r)).
Proof.
  intros -> Hr. destruct r as [p|]; simpl.
  - right. destruct Hr as [Hn [n ->]]. split; [done|]. by exists n.
  - left. by split.
Qed.

(** [add_member] up to the insertion of the member document: the document
    has the shape above, it goes in with a new ObjectId, and what follows
    is [admin_part]. *)
Lemma add_member_run (member_data : doc)
    (photo_file resume_file : option UploadFile) (w : World) :
  exists (d : doc) (w3 : World),
    frame w w3
    /\ member_shape member_data photo_file resume_file d
    /\ add_member member_data photo_file resume_file w
       = admin_part (form_admin member_data) (dict_get member_data "name")
           (dict_get member_data "email") (dict_get member_data "password")
           (stored members_collection d w3).
Proof.
  unfold add_member, dict_pop.
  fold (form_admin member_data).
  rewrite !dict_get_delete_ne by done.
  unfold bind at 1.
  destruct (utcnow_frame w) as (t & w1 & -> & F1).
  set (d0 := <["createdAt" := VDate t]> _).
  assert (member_shape member_data None None d0) as S0.
  { subst d0. split; try (by simplify_map_eq).
    - exists t. by simplify_map_eq.
    - intros k Hk. unfold member_keys in Hk.
      repeat (rewrite lookup_insert_ne by set_solver). done. }
  clearbody d0.
  (* photo *)
  unfold bind at 1.
  assert (exists d1 w2, (if file_truthy photo_file
              then photo_url <- save_upload_file photo_file ;;
                   ret (<["photoUrl" := of_opt_str photo_url]> d0)
              else ret d0) w1 = (Ok d1, w2) /\ frame w1 w2
            /\ member_shape member_data photo_file None d1)
    as (d1 & w2 & -> & F2 & S1).
  { destruct photo_file as [u|]; cbn [file_truthy].
    - destruct (save_upload_file_frame (Some u) w1) as (r & w2 & E & F & Hr).
      unfold bind. rewrite E. eexists _, _. split; [reflexivity|].
      split; [done|]. destruct S0 as [? ? ? ? ? [t0 ?] ? ? Ho].
      split; rewrite ?lookup_insert_eq; rewrite ?lookup_insert_ne by done;
        try done.
      + by exists t0.
      + by eapply file_slot_saved.
      + intros k Hk. unfold member_keys in Hk.
        rewrite lookup_insert_ne by set_solver. auto.
    - eexists _, _. split; [reflexivity|]. split; [apply frame_refl|done]. }
  (* resume *)
  unfold bind at 1.
  assert (exists d2 w3, (if file_truthy resume_file
              then resume_url <- save_upload_file resume_file ;;
                   ret (<["resumeUrl" := of_opt_str resume_url]> d1)
              else ret d1) w2 = (Ok d2, w3) /\ frame w2 w3
            /\ member_shape member_data photo_file resume_file d2)
    as (d2 & w3 & -> & F3 & S2).
  { destruct resume_file as [u|]; cbn [file_truthy].
    - destruct (save_upload_file_frame (Some u) w2) as (r & w3 & E & F & Hr).
      unfold bind. rewrite E. eexists _, _. split; [reflexivity|].
      split; [done|]. destruct S1 as [? ? ? ? ? [t0 ?] ? ? Ho].
      split; rewrite ?lookup_insert_eq; rewrite ?lookup_insert_ne by done;
        try done.
      + by exists t0.
      + by eapply file_slot_saved.
      + intros k Hk. unfold member_keys in Hk.
        rewrite lookup_insert_ne by set_solver. auto.
    - eexists _, _. split; [reflexivity|]. split; [apply frame_refl|done]. }
  exists d2, w3. split; [eauto using frame_trans|]. split; [done|].
  unfold bind at 1.
  rewrite insert_one_fresh
    by (apply (ms_only _ _ _ _ S2), internal_not_member_key).
  reflexivity.
Qed.

Lemma matches_equal (k : string) (v : value) (d : doc) :
  d !! k = Some v -> matches k v d = true.
Proof.
  intros E. unfold matches. rewrite E.
  apply orb_true_iff. left. by apply bool_decide_eq_true.
Qed.

(** A check of [user_exists] that computes. *)
Lemma user_exists_check (w : World) (email : value) :
  existsb (fun u => bool_decide (u !! "email" = Some email)) (users w) = true ->
  user_exists w email.
Proof.
  intros (u & Hin & Hu)%existsb_exists. exists u. split.
  - by apply list_elem_of_In.
  - by apply bool_decide_eq_true in Hu.
Qed.

Lemma user_exists_find (w : World) (email : value) :
  user_exists w email ->
  exists u, List.find (matches "email" email) (users w) = Some u.
Proof.
  intros (u & Hin & Hu).
  destruct (List.find _ _) as [u'|] eqn:E; [by eexists|].
  apply list_elem_of_In in Hin.
  pose proof (find_none _ _ E u Hin) as Hm.
  by rewrite (matches_equal _ _ _ Hu) in Hm.
Qed.

Lemma admin_part_plain (is_admin name email password : value) (w : World) :
  truthy is_admin = false ->
  admin_part is_admin name email password w = (Ok success_member, w).
Proof. intros Ha. unfold admin_part. by rewrite Ha. Qed.

Lemma admin_part_incomplete (is_admin name email password : value) (w : World) :
  truthy is_admin = true ->
  truthy name && truthy email && truthy password = false ->
  admin_part is_admin name email password w = (Ok error_incomplete, w).
Proof. intros Ha Hall. unfold admin_part. by rewrite Ha, Hall. Qed.

Lemma admin_part_found (is_admin name email password : value) (w : World)
    (u : doc) :
  truthy is_admin = true ->
  truthy name && truthy email && truthy password = true ->
  List.find (matches "email" email) (users w) = Some u ->
  admin_part is_admin name email password w = (Ok error_duplicate, w).
Proof.
  intros Ha Hall Hu. unfold admin_part. rewrite Ha, Hall. cbn [negb].
  apply andb_true_iff in Hall as [[_ He]%andb_true_iff _].
  destruct (get_user_by_email_hit _ _ _ (truthy_not_none _ He) Hu) as [E Ht].
  unfold bind. rewrite E. cbn [opt_dict_truthy]. by rewrite Ht.
Qed.

Lemma admin_part_duplicate (is_admin name email password : value) (w : World) :
  truthy is_admin = true ->
  truthy name && truthy email && truthy password = true ->
  user_exists w email ->
  admin_part is_admin name email password w = (Ok error_duplicate, w).
Proof.
  intros Ha Hall Hex. destruct (user_exists_find _ _ Hex) as [u Hu].
  by eapply admin_part_found.
Qed.

Lemma admin_part_create (is_admin name email : value) (p : string) (w : World) :
  truthy is_admin = true ->
  truthy name && truthy email && truthy (VStr p) = true ->
  List.find (matches "email" email) (users w) = None ->
  hash_refuses p = false ->
  admin_part is_admin name email (VStr p) w
  = (Ok success_admin,
     stored users_collection (new_user_doc name email p w) (after_hash p w)).
Proof.
  intros Ha Hall Hf Hacc. unfold admin_part. rewrite Ha, Hall. cbn [negb].
  unfold bind at 1. rewrite (get_user_by_email_miss _ _ Hf).
  cbn [opt_dict_truthy]. unfold bind at 1, get_password_hash.
  rewrite Hacc. reflexivity.
Qed.

(** The hasher refuses the password: [admin_part] raises, and the world is
    as it found it (the member document was inserted before). *)
Lemma admin_part_refused (is_admin name email : value) (p : string) (w : World) :
  truthy is_admin = true ->
  truthy name && truthy email && truthy (VStr p) = true ->
  List.find (matches "email" email) (users w) = None ->
  hash_refuses p = true ->
  admin_part is_admin name email (VStr p) w = (Raise ValueError, w).
Proof.
  intros Ha Hall Hf Href. unfold admin_part. rewrite Ha, Hall. cbn [negb].
  unfold bind at 1. rewrite (get_user_by_email_miss _ _ Hf).
  cbn [opt_dict_truthy]. unfold bind at 1, get_password_hash.
  by rewrite Href.
Qed.

Lemma admin_part_not_string (is_admin name email password : value) (w : World) :
  truthy is_admin = true ->
  truthy name && truthy email && truthy password = true ->
  List.find (matches "email" email) (users w) = None ->
  (forall p, password <> VStr p) ->
  admin_part is_admin name email password w = (Raise TypeError, w).
Proof.
  intros Ha Hall Hf Hp. unfold admin_part. rewrite Ha, Hall. cbn [negb].
  unfold bind at 1. rewrite (get_user_by_email_miss _ _ Hf).
  cbn [opt_dict_truthy].
  destruct password; try reflexivity. by destruct (Hp s).
Qed.

Lemma stored_members (d : doc) (w0 w : World) :
  frame w0 w ->
  let w' := stored members_collection d w in
  members w' = (members w0 ++ [<["_id" := VObjectId (oids w0)]> d])%list
  /\ users w' = users w0 /\ hashed w' = hashed w0
  /\ oids w' = N.succ (oids w0).
Proof. intros []. simpl. repeat split; congruence. Qed.

(** C1. With the admin flag set and name, email and password all non-empty,
    when a user document with that email is already in the store:
    [add_member] returns the duplicate-email error result, the users
    collection is exactly what it was, the hasher was not called, and the
    member document built from the form is in the members collection. *)
Theorem add_member_duplicate_email (member_data : doc)
    (photo_file resume_file : option UploadFile) (w : World) :
  truthy (form_admin member_data) = true ->
  truthy (dict_get member_data "name") = true ->
  truthy (dict_get member_data "email") = true ->
  truthy (dict_get member_data "password") = true ->
  user_exists w (dict_get member_data "email") ->
  exists (d : doc) (w' : World),
    add_member member_data photo_file resume_file w = (Ok error_duplicate, w')
    /\ users w' = users w
    /\ hashed w' = hashed w
    /\ members w' = (members w ++ [<["_id" := VObjectId (oids w)]> d])%list
    /\ member_shape member_data photo_file resume_file d.
Proof.
  intros Ha Hn He Hp Hex.
  destruct (add_member_run member_data photo_file resume_file w)
    as (d & w3 & F & Sh & E).
  destruct (stored_members d w w3 F) as (Hm & Hu & Hh & _).
  exists d, (stored members_collection d w3).
  rewrite E, admin_part_duplicate; [done|done|by rewrite Hn, He, Hp|].
  destruct Hex as (u & Hin & Hue). exists u. by rewrite Hu.
Qed.

(** C2. With the admin flag set and any of name, email or password empty:
    [add_member] returns the incomplete-admin error result, the member
    document is in the members collection all the same, the users collection
    is exactly what it was and the hasher was not called. *)
Theorem add_member_incomplete_admin (member_data : doc)
    (photo_file resume_file : option UploadFile) (w : World) :
  truthy (form_admin member_data) = true ->
  truthy (dict_get member_data "name") = false
  \/ truthy (dict_get member_data "email") = false
  \/ truthy (dict_get member_data "password") = false ->
  exists (d : doc) (w' : World),
    add_member member_data photo_file resume_file w = (Ok error_incomplete, w')
    /\ members w' = (members w ++ [<["_id" := VObjectId (oids w)]> d])%list
    /\ member_shape member_data photo_file resume_file d
    /\ users w' = users w
    /\ hashed w' = hashed w.
Proof.
  intros Ha Hempty.
  destruct (add_member_run member_data photo_file resume_file w)
    as (d & w3 & F & Sh & E).
  destruct (stored_members d w w3 F) as (Hm & Hu & Hh & _).
  exists d, (stored members_collection d w3).
  rewrite E, admin_part_incomplete; [done|done|].
  destruct Hempty as [Hx|[Hx|Hx]]; rewrite Hx.
  - done.
  - by rewrite andb_false_r.
  - by rewrite andb_false_r.
Qed.

(** What [admin_part] leaves in the users collection: nothing new, or one
    document holding the digest of the form's password. *)
Lemma admin_part_users (is_admin name email password : value) (w : World) :
  exists r w',
    admin_part is_admin name email password w = (r, w')
    /\ members w' = members w
    /\ (users w' = users w
        \/ exists p u,
             password = VStr p
             /\ users w' = (users w ++ [u])%list
             /\ u !! "password"
                = Some (VStr (bcrypt_hash (entropy (draws w)) p))
             /\ u !! "name" = Some name /\ u !! "email" = Some email
             /\ forall k, k ∉ user_keys -> u !! k = None).
Proof.
  destruct (truthy is_admin) eqn:Ha.
  2:{ eexists _, _. rewrite admin_part_plain by done. auto. }
  destruct (truthy name && truthy email && truthy password) eqn:Hall.
  2:{ eexists _, _. rewrite admin_part_incomplete by done. auto. }
  destruct (List.find (matches "email" email) (users w)) as [u|] eqn:Hf.
  { eexists _, _. erewrite admin_part_found by done. auto. }
  assert ((exists p, password = VStr p) \/ forall p, password <> VStr p)
    as [Hp|Hp] by (destruct password; eauto).
  - destruct Hp as [p ->].
    destruct (hash_refuses p) eqn:Href.
    { eexists _, _. rewrite admin_part_refused by done. auto. }
    eexists _, _.
    rewrite admin_part_create by done.
    split; [reflexivity|]. split; [done|]. right.
    exists p, (<["_id" := VObjectId (oids w)]> (new_user_doc name email p w)).
    split; [done|]. split; [done|]. unfold new_user_doc.
    repeat split; try (by simplify_map_eq).
    intros k Hk. unfold user_keys in Hk.
    rewrite !not_elem_of_cons in Hk. destruct Hk as (?&?&?&?&?&_).
    by rewrite !lookup_insert_ne, lookup_empty by done.
  - eexists _, _. rewrite admin_part_not_string by done. auto.
Qed.

Lemma not_member_key_password : "password" ∉ member_keys.
Proof. apply (bool_decide_unpack _). by vm_compute. Qed.

Lemma not_member_key_admin : "isAdmin" ∉ member_keys.
Proof. apply (bool_decide_unpack _). by vm_compute. Qed.

Lemma admin_part_outcome (is_admin name email password : value) (w : World) :
  exists r w',
    admin_part is_admin name email password w = (r, w')
    /\ members w' = members w
    /\ ((users w' = users w /\ hashed w' = hashed w)
        \/ exists p,
             password = VStr p
             /\ users w'
                = (users w
                   ++ [admin_user_doc (oids w) name email
                         (bcrypt_hash (entropy (draws w)) p)
                         (clock (ticks w))])%list
             /\ hashed w' = p :: hashed w).
Proof.
  destruct (truthy is_admin) eqn:Ha.
  2:{ eexists _, _. rewrite admin_part_plain by done. auto. }
  destruct (truthy name && truthy email && truthy password) eqn:Hall.
  2:{ eexists _, _. rewrite admin_part_incomplete by done. auto. }
  destruct (List.find (matches "email" email) (users w)) as [u|] eqn:Hf.
  { eexists _, _. erewrite admin_part_found by done. auto. }
  assert ((exists p, password = VStr p) \/ forall p, password <> VStr p)
    as [[p ->]|Hp] by (destruct password; eauto).
  - destruct (hash_refuses p) eqn:Href.
    { eexists _, _. rewrite admin_part_refused by done. auto. }
    eexists _, _. rewrite admin_part_create by done.
    split; [reflexivity|]. split; [done|]. right. exists p. by split.
  - eexists _, _. rewrite admin_part_not_string by done. auto.
Qed.

Lemma admin_part_members (is_admin name email password : value) (w : World) :
  members (snd (admin_part is_admin name email password w)) = members w.
Proof.
  destruct (admin_part_outcome is_admin name email password w)
    as (r & w' & E & Hm & _).
  by rewrite E.
Qed.

(** Two runs that differ only in what follows a shared first step leave the
    same members when what follows does. *)
Lemma bind_members_tail {A B} (m : M A) (k1 k2 : A -> M B) (w : World) :
  (forall a w1, members (snd (k1 a w1)) = members (snd (k2 a w1))) ->
  members (snd (bind m k1 w)) = members (snd (bind m k2 w)).
Proof.
  intros Hk. unfold bind. destruct (m w) as [[a|e] w1]; [apply Hk|done].
Qed.

(** The members collection [add_member] leaves does not depend on the
    password and the admin flag of the form. *)
Lemma add_member_members_agree (member_data other : doc)
    (photo_file resume_file : option UploadFile) (w : World) :
  (forall k, k <> "password" -> k <> "isAdmin" ->
             other !! k = member_data !! k) ->
  members (snd (add_member other photo_file resume_file w))
  = members (snd (add_member member_data photo_file resume_file w)).
Proof.
  intros Hagree.
  assert (forall k, k <> "password" -> k <> "isAdmin" ->
                    dict_get other k = dict_get member_data k) as Hget.
  { intros k ? ?. unfold dict_get. by rewrite Hagree. }
  unfold add_member, dict_pop.
  rewrite !dict_get_delete_ne by done.
  rewrite !(Hget "name"), !(Hget "email"), (Hget "github"), (Hget "linkedin"),
    (Hget "role") by done.
  do 4 (apply bind_members_tail; intros ? ?).
  etrans; [apply admin_part_members|]. symmetry. apply admin_part_members.
Qed.

(** C10. Whatever the form holds and however the call ends, [add_member]
    appends to members one document built from the form's name, role,
    linkedin, github and email, a creation time and the URLs of the files
    that came with it, and nothing else but the store's identifier: the
    password and the admin flag are not on it, under any key, and any other
    form that differs only in its password and admin flag leaves the very
    same members collection. The users collection either is untouched or
    gains exactly one document, holding the form's name and email, a
    creation time, the next identifier and, as its password, the hasher's
    digest of the form's password. *)
Theorem add_member_keeps_secrets (member_data : doc)
    (photo_file resume_file : option UploadFile) (w : World) :
  exists r (d : doc) (w' : World),
    add_member member_data photo_file resume_file w = (r, w')
    /\ members w' = (members w ++ [<["_id" := VObjectId (oids w)]> d])%list
    /\ member_shape member_data photo_file resume_file d
    /\ d !! "password" = None
    /\ d !! "isAdmin" = None
    /\ (forall other : doc,
          (forall k, k <> "password" -> k <> "isAdmin" ->
                     other !! k = member_data !! k) ->
          members (snd (add_member other photo_file resume_file w))
          = members w')
    /\ (users w' = users w
        \/ exists p salt t,
             dict_get member_data "password" = VStr p
             /\ users w'
                = (users w
                   ++ [admin_user_doc (N.succ (oids w))
                         (dict_get member_data "name")
                         (dict_get member_data "email")
                         (bcrypt_hash salt p) t])%list).
Proof.
  destruct (add_member_run member_data photo_file resume_file w)
    as (d & w3 & F & Sh & E).
  destruct (stored_members d w w3 F) as (Hm & Hu & Hh & Ho).
  destruct (admin_part_outcome (form_admin member_data)
              (dict_get member_data "name") (dict_get member_data "email")
              (dict_get member_data "password")
              (stored members_collection d w3))
    as (r & w' & E' & Hm' & Husers).
  exists r, d, w'.
  split; [by rewrite E|]. split; [by rewrite Hm'|]. split; [done|].
  pose proof (ms_only _ _ _ _ Sh) as Honly.
  split; [apply Honly, not_member_key_password|].
  split; [apply Honly, not_member_key_admin|].
  split.
  { intros other Hagree.
    rewrite (add_member_members_agree member_data other) by done.
    by rewrite E, E'. }
  destruct Husers as [[Hsame _]|(p & Hp & Hus & _)].
  - left. congruence.
  - right. exists p. eexists _, _. split; [done|].
    rewrite Hus, Hu.
    replace (N.succ (oids w)) with (oids (stored members_collection d w3))
      by exact Ho.
    reflexivity.
Qed.

(** ** Adds with one image *)

Lemma image_shape_run (data : doc) (image_file : option UploadFile)
    (r : option string) (t : Z) :
  match r with
  | None => file_absent image_file
  | Some u =>
      ~ file_absent image_file /\ exists n, u = "/" +:+ UPLOAD_DIR +:+ "/" +:+ n
  end ->
  image_shape data image_file
    (<["createdAt" := VDate t]>
       (if opt_str_truthy r then <["imageUrl" := of_opt_str r]> data else data)).
Proof.
  intros Hr. destruct r as [u|].
  - destruct Hr as [Hn [n ->]]. rewrite opt_str_truthy_upload. split.
    + exists t. by simplify_map_eq.
    + done.
    + intros _. exists n. by simplify_map_eq.
    + intros k ? ?. by rewrite !lookup_insert_ne.
  - simpl. split.
    + exists t. by simplify_map_eq.
    + intros _. by rewrite lookup_insert_ne.
    + done.
    + intros k ? ?. by rewrite lookup_insert_ne.
Qed.

Ltac image_add_run data image_file w Hid :=
  destruct (save_upload_file_frame image_file w) as (r & w1 & E & F & Hr);
  destruct (utcnow_frame w1) as (t & w2 & Et & Ft);
  exists (<["createdAt" := VDate t]>
            (if opt_str_truthy r then <["imageUrl" := of_opt_str r]> data
             else data)), w2;
  split; [by eapply frame_trans|];
  split; [by apply image_shape_run|];
  unfold bind at 1; rewrite E;
  unfold bind at 1; rewrite Et;
  unfold bind at 1; rewrite insert_one_fresh;
  [reflexivity
  |rewrite lookup_insert_ne by done;
   destruct (opt_str_truthy r); [by rewrite lookup_insert_ne|done]].

Lemma add_project_run (project_data : doc) (image_file : option UploadFile)
    (w : World) :
  project_data !! "_id" = None ->
  exists (d : doc) (w2 : World),
    frame w w2 /\ image_shape project_data image_file d
    /\ add_project project_data image_file w
       = (Ok (result "success" "Project added successfully"),
          stored projects_collection d w2).
Proof.
  intros Hid. unfold add_project. image_add_run project_data image_file w Hid.
Qed.

Lemma add_gallery_item_run (gallery_data : doc)
    (image_file : option UploadFile) (w : World) :
  gallery_data !! "_id" = None ->
  exists (d : doc) (w2 : World),
    frame w w2 /\ image_shape gallery_data image_file d
    /\ add_gallery_item gallery_data image_file w
       = (Ok (result "success" "Gallery item added successfully"),
          stored gallery_collection d w2).
Proof.
  intros Hid. unfold add_gallery_item.
  image_add_run gallery_data image_file w Hid.
Qed.

Lemma add_blog_run (blog_data : doc) (image_file : option UploadFile)
    (w : World) :
  blog_data !! "_id" = None ->
  exists (d : doc) (w2 : World),
    frame w w2 /\ image_shape blog_data image_file d
    /\ add_blog blog_data image_file w
       = (Ok (result "success" "Blog post added successfully"),
          stored blogs_collection d w2).
Proof.
  intros Hid. unfold add_blog. image_add_run blog_data image_file w Hid.
Qed.

(** C3 (the path that departs from it). An upload object with an empty
    filename makes [add_member] store the member document with the key
    ["photoUrl"] present, bound to [None]: [if photo_file:] lets the object
    through and the [None] that [save_upload_file] answers is assigned. *)
Theorem add_member_empty_filename (member_data : doc)
    (bytes : list Byte.byte) (resume_file : option UploadFile) (w : World) :
  exists r (sd : doc) (w' : World),
    add_member member_data (Some (mkUploadFile (Some "") bytes)) resume_file w
    = (r, w')
    /\ members w' = (members w ++ [sd])%list
    /\ sd !! "photoUrl" = Some VNone.
Proof.
  set (photo := Some (mkUploadFile (Some "") bytes)).
  destruct (add_member_run member_data photo resume_file w)
    as (d & w3 & F & Sh & E).
  destruct (stored_members d w w3 F) as (Hm & _).
  destruct (admin_part_users (form_admin member_data)
              (dict_get member_data "name") (dict_get member_data "email")
              (dict_get member_data "password")
              (stored members_collection d w3))
    as (r & w' & E' & Hm' & _).
  exists r, (<["_id" := VObjectId (oids w)]> d), w'.
  split; [by rewrite E|]. split; [by rewrite Hm'|].
  rewrite lookup_insert_ne by done.
  destruct (ms_photo _ _ _ _ Sh) as [[_ Hs]|[Hn _]]; [done|].
  destruct Hn. right. eexists. split; [done|]. by right.
Qed.

(** ** Invariants of the store *)

Lemma preserves_ret (P : World -> Prop) {A} (a : A) : preserves P (ret a).
Proof. by intros w. Qed.

Lemma preserves_raise (P : World -> Prop) {A} (e : exn) :
  preserves P (raise (A := A) e).
Proof. by intros w. Qed.

Lemma preserves_bind (P : World -> Prop) {A B} (m : M A) (f : A -> M B) :
  preserves P m -> (forall a, preserves P (f a)) -> preserves P (bind m f).
Proof.
  intros Hm Hf w Hw. unfold bind. specialize (Hm w Hw).
  destruct (m w) as [[a|e] w1]; simpl in *; [by apply Hf|done].
Qed.

(** A step that leaves every collection as it was keeps every [all_docs]. *)
Lemma preserves_same_documents (Q : collection -> doc -> Prop) {A} (m : M A) :
  (forall w c, documents c (snd (m w)) = documents c w) ->
  preserves (all_docs Q) m.
Proof. intros Hm w Hw c d. rewrite Hm. apply Hw. Qed.

Lemma preserves_utcnow Q : preserves (all_docs Q) utcnow.
Proof. apply preserves_same_documents. by intros w []. Qed.

Lemma preserves_draw Q : preserves (all_docs Q) draw.
Proof. apply preserves_same_documents. by intros w []. Qed.

Lemma preserves_write_file Q path bytes :
  preserves (all_docs Q) (write_file path bytes).
Proof. apply preserves_same_documents. by intros w []. Qed.

Lemma preserves_log_hash Q p : preserves (all_docs Q) (log_hash p).
Proof. apply preserves_same_documents. by intros w []. Qed.

Lemma preserves_fresh_oid Q : preserves (all_docs Q) fresh_oid.
Proof. apply preserves_same_documents. by intros w []. Qed.

Lemma preserves_find_one Q c k v : preserves (all_docs Q) (find_one c k v).
Proof. by apply preserves_same_documents. Qed.

Lemma preserves_find Q c : preserves (all_docs Q) (find c).
Proof. by apply preserves_same_documents. Qed.

Lemma preserves_append_document Q c d :
  Q c d -> preserves (all_docs Q) (append_document c d).
Proof.
  intros Hd w Hw c' d'. unfold append_document. simpl.
  destruct (decide (c = c')) as [<-|Hne].
  - rewrite documents_set_eq. intros [?| ->%list_elem_of_singleton]%elem_of_app;
      [by apply Hw|done].
  - rewrite documents_set_ne by done. apply Hw.
Qed.

(** [insert_one] keeps the invariant when the document satisfies it under
    whichever identifier it ends up with. *)
Lemma preserves_insert_one Q c (d : doc) :
  (forall v, Q c (<["_id" := v]> d)) ->
  preserves (all_docs Q) (insert_one c d).
Proof.
  intros Hd. unfold insert_one. destruct (d !! "_id") as [v|] eqn:E.
  - apply preserves_bind; [apply preserves_find_one|]. intros [x|].
    + apply preserves_raise.
    + apply preserves_append_document. specialize (Hd v).
      by rewrite insert_id in Hd.
  - apply preserves_bind; [apply preserves_fresh_oid|]. intros oid.
    by apply preserves_append_document.
Qed.

Lemma preserves_save_upload_file Q upload_file :
  preserves (all_docs Q) (save_upload_file upload_file).
Proof.
  unfold save_upload_file. destruct upload_file as [f|]; [|apply preserves_ret].
  destruct (filename f) as [fname|]; [|apply preserves_ret].
  destruct (negb (str_truthy fname)); [apply preserves_ret|].
  apply preserves_bind.
  { apply preserves_bind; [apply preserves_draw|]. intros; apply preserves_ret. }
  intros hex. apply preserves_bind; [apply preserves_write_file|].
  intros; apply preserves_ret.
Qed.

Lemma preserves_get_user_by_email Q email :
  preserves (all_docs Q) (get_user_by_email email).
Proof.
  apply preserves_same_documents. intros w c.
  by rewrite get_user_by_email_run.
Qed.

Lemma preserves_get_password_hash Q password :
  preserves (all_docs Q) (get_password_hash password).
Proof.
  destruct password as [| |p| | |]; try apply preserves_raise.
  unfold get_password_hash.
  destruct (hash_refuses p); [apply preserves_raise|].
  apply preserves_bind; [apply preserves_draw|]. intros salt.
  apply preserves_bind; [apply preserves_log_hash|]. intros; apply preserves_ret.
Qed.

Ltac preserves_step :=
  first
    [ apply preserves_ret
    | apply preserves_raise
    | apply preserves_utcnow
    | apply preserves_save_upload_file
    | apply preserves_get_user_by_email
    | apply preserves_get_password_hash
    | apply preserves_insert_one; intros; auto
    | apply preserves_bind; [|intros ?] ].

Lemma preserves_add_project Q data image_file :
  admits Q projects_collection ->
  preserves (all_docs Q) (add_project data image_file).
Proof. intros HQ. unfold add_project. repeat preserves_step. Qed.

Lemma preserves_add_gallery_item Q data image_file :
  admits Q gallery_collection ->
  preserves (all_docs Q) (add_gallery_item data image_file).
Proof. intros HQ. unfold add_gallery_item. repeat preserves_step. Qed.

Lemma preserves_add_blog Q data image_file :
  admits Q blogs_collection ->
  preserves (all_docs Q) (add_blog data image_file).
Proof. intros HQ. unfold add_blog. repeat preserves_step. Qed.

Lemma preserves_add_member Q member_data photo_file resume_file :
  admits Q members_collection ->
  admits_new_user Q ->
  preserves (all_docs Q) (add_member member_data photo_file resume_file).
Proof.
  intros HQ HU. unfold add_member, dict_pop.
  apply preserves_bind; [apply preserves_utcnow|]. intros now.
  apply preserves_bind.
  { destruct (file_truthy photo_file); repeat preserves_step. }
  intros d1. apply preserves_bind.
  { destruct (file_truthy resume_file); repeat preserves_step. }
  intros d2. apply preserves_bind; [by apply preserves_insert_one|].
  intros _. destruct (truthy _); [|apply preserves_ret].
  destruct (negb _); [apply preserves_ret|].
  apply preserves_bind; [apply preserves_get_user_by_email|].
  intros existing_user.
  destruct (match existing_user with Some u => dict_truthy u | None => false end);
    [apply preserves_ret|].
  apply preserves_bind; [apply preserves_get_password_hash|]. intros h.
  apply preserves_bind; [apply preserves_utcnow|]. intros now'.
  apply preserves_bind; [|intros; apply preserves_ret].
  apply preserves_insert_one. intros v. apply HU.
Qed.

Lemma store_wf_empty : store_wf empty_world.
Proof. intros c d Hd. destruct c; by apply elem_of_nil in Hd. Qed.

Lemma users_wf_empty : users_wf empty_world.
Proof. intros c d Hd. destruct c; by apply elem_of_nil in Hd. Qed.

(** Each add keeps both invariants, whatever it is given and whether it
    returns or raises. *)
Lemma adds_keep_store_wf :
  (forall data f, preserves store_wf (add_project data f))
  /\ (forall data p r, preserves store_wf (add_member data p r))
  /\ (forall data f, preserves store_wf (add_gallery_item data f))
  /\ (forall data f, preserves store_wf (add_blog data f)).
Proof.
  assert (forall c, admits (fun _ d => is_Some (d !! "_id")) c) as HA.
  { intros c d v. rewrite lookup_insert_eq. eauto. }
  split; [|split; [|split]]; intros data.
  - intros f. by apply preserves_add_project.
  - intros p r. apply preserves_add_member; [done|].
    intros v now h name email. rewrite lookup_insert_eq. eauto.
  - intros f. by apply preserves_add_gallery_item.
  - intros f. by apply preserves_add_blog.
Qed.

Lemma adds_keep_users_wf :
  (forall data f, preserves users_wf (add_project data f))
  /\ (forall data p r, preserves users_wf (add_member data p r))
  /\ (forall data f, preserves users_wf (add_gallery_item data f))
  /\ (forall data f, preserves users_wf (add_blog data f)).
Proof.
  split; [|split; [|split]]; intros data.
  - intros f. by apply preserves_add_project.
  - intros p r. apply preserves_add_member; [done|].
    intros v now h name email _. split; [|split].
    + eexists. by simplify_map_eq.
    + eexists. by simplify_map_eq.
    + exists h. by simplify_map_eq.
  - intros f. by apply preserves_add_gallery_item.
  - intros f. by apply preserves_add_blog.
Qed.

(** ** Reads publish the identifier *)

Lemma get_all_run (c : collection) (w : World) :
  get_all c w = (Ok (List.map mongo_id_serializer (documents c w)), w).
Proof. by destruct c. Qed.

Lemma public_of_serializer (d0 : doc) :
  is_Some (d0 !! "_id") -> public_of d0 (mongo_id_serializer d0).
Proof.
  intros [v Hv]. exists v. split; [done|]. split.
  - unfold mongo_id_serializer. by rewrite Hv.
  - split; [apply mongo_id_serializer_internal|].
    by apply mongo_id_serializer_public.
Qed.

Lemma get_all_public (c : collection) (w : World) :
  store_wf w ->
  exists l, get_all c w = (Ok l, w) /\ Forall2 public_of (documents c w) l.
Proof.
  intros Hwf. eexists. split; [apply get_all_run|].
  specialize (Hwf c). induction (documents c w) as [|d0 l IH]; simpl.
  - constructor.
  - constructor.
    + apply public_of_serializer, Hwf. by left.
    + apply IH. intros d Hd. apply Hwf. by right.
Qed.

Lemma get_user_by_email_public (email : value) (w : World) :
  store_wf w ->
  exists o,
    get_user_by_email email w = (Ok o, w)
    /\ forall u, o = Some u -> exists d0, d0 ∈ users w /\ public_of d0 u.
Proof.
  intros Hwf. eexists. split; [apply get_user_by_email_run|].
  intros u Hu. destruct (List.find _ _) as [d0|] eqn:Hf; [|done].
  destruct (dict_truthy d0); [|done]. injection Hu as <-.
  apply find_some in Hf as [Hin _]. apply list_elem_of_In in Hin.
  exists d0. split; [done|].
  apply public_of_serializer, (Hwf users_collection d0 Hin).
Qed.

(** After [d] went into collection [c], reading [c] lists what it listed
    before and then the new item. *)
Lemma stored_listed (c : collection) (d : doc) (w0 w w' : World) :
  frame w0 w ->
  documents c w' = documents c (stored c d w) ->
  exists before after,
    get_all c w0 = (Ok before, w0)
    /\ get_all c w' = (Ok after, w')
    /\ added_item_listed before after.
Proof.
  intros F Hdocs. eexists _, _.
  split; [apply get_all_run|]. split; [apply get_all_run|].
  rewrite Hdocs, stored_documents_eq, (frame_documents c _ _ F), map_app.
  eexists _, _. split; [reflexivity|].
  split; [apply mongo_id_serializer_internal|]. split.
  - apply mongo_id_serializer_public, lookup_insert_eq.
  - split; [apply hex_fixed_length|apply hex_fixed_is_hex].
Qed.

(** C8. In a store whose documents all carry the internal identifier, every
    document that [get_all_projects], [get_all_members], [get_all_users],
    [get_all_gallery_items], [get_all_blogs] or [get_user_by_email] returns
    is a stored document with ["_id"] removed and its string form under
    ["id"]; and after any add, reading the collection lists the items it
    listed before followed by the new one, which has no ["_id"] and whose
    ["id"] is a string of 24 hexadecimal digits. *)
Theorem reads_publish_id (w : World) :
  store_wf w ->
  (forall c,
     exists l, get_all c w = (Ok l, w) /\ Forall2 public_of (documents c w) l)
  /\ (forall email,
        exists o,
          get_user_by_email email w = (Ok o, w)
          /\ forall u, o = Some u -> exists d0, d0 ∈ users w /\ public_of d0 u)
  /\ (forall data f,
        data !! "_id" = None ->
        lists_new_item projects_collection (add_project data f) w
          (Ok (result "success" "Project added successfully")))
  /\ (forall data p r,
        exists res,
          lists_new_item members_collection (add_member data p r) w res)
  /\ (forall data f,
        data !! "_id" = None ->
        lists_new_item gallery_collection (add_gallery_item data f) w
          (Ok (result "success" "Gallery item added successfully")))
  /\ (forall data f,
        data !! "_id" = None ->
        lists_new_item blogs_collection (add_blog data f) w
          (Ok (result "success" "Blog post added successfully"))).
Proof.
  intros Hwf.
  split; [intros c; by apply get_all_public|].
  split; [intros email; by apply get_user_by_email_public|].
  split; [|split; [|split]].
  - intros data f Hid.
    destruct (add_project_run data f w Hid) as (d & w2 & F & _ & E).
    destruct (stored_listed projects_collection d w w2 _ F eq_refl)
      as (before & after & ? & ? & ?).
    by eexists _, before, after.
  - intros data p r.
    destruct (add_member_run data p r w) as (d & w3 & F & _ & E).
    destruct (admin_part_users (form_admin data) (dict_get data "name")
                (dict_get data "email") (dict_get data "password")
                (stored members_collection d w3))
      as (res & w' & E' & Hm' & _).
    destruct (stored_listed members_collection d w w3 w' F Hm')
      as (before & after & ? & ? & ?).
    exists res, w', before, after. by rewrite E.
  - intros data f Hid.
    destruct (add_gallery_item_run data f w Hid) as (d & w2 & F & _ & E).
    destruct (stored_listed gallery_collection d w w2 _ F eq_refl)
      as (before & after & ? & ? & ?).
    by eexists _, before, after.
  - intros data f Hid.
    destruct (add_blog_run data f w Hid) as (d & w2 & F & _ & E).
    destruct (stored_listed blogs_collection d w w2 _ F eq_refl)
      as (before & after & ? & ? & ?).
    by eexists _, before, after.
Qed.

(** ** Authentication gate *)

Lemma get_current_user_run (request : Request) (w : World) :
  get_current_user request w
  = (if truthy (dict_get (session request) "user_email")
     then get_user_by_email (dict_get (session request) "user_email") w
     else (Ok None, w)).
Proof.
  unfold get_current_user. destruct (truthy _); [|done].
  unfold bind. rewrite get_user_by_email_run. reflexivity.
Qed.

(** [get_current_user] reads only; it misses exactly when the session has no
    email or no user document matches it, and what it finds is a true dict. *)
Lemma get_current_user_resolves (request : Request) (w : World) :
  let user_email := dict_get (session request) "user_email" in
  exists o,
    get_current_user request w = (Ok o, w)
    /\ (o = None
        <-> truthy user_email = false
            \/ List.find (matches "email" user_email) (users w) = None)
    /\ (forall u, o = Some u -> dict_truthy u = true).
Proof.
  intros user_email. rewrite get_current_user_run. fold user_email.
  destruct (truthy user_email) eqn:Ht.
  - destruct (List.find (matches "email" user_email) (users w)) as [d0|] eqn:Hf.
    + destruct (get_user_by_email_hit _ _ _ (truthy_not_none _ Ht) Hf)
        as [E Hd].
      eexists. split; [exact E|]. split.
      * split; [done|]. by intros [?|?].
      * by intros u [= <-].
    + eexists. split; [by apply get_user_by_email_miss|]. split; [|done].
      split; auto.
  - exists None. split; [done|]. split; [|done]. split; auto.
Qed.

(** C5. [get_current_user] always answers without touching the world, and
    answers none exactly when the session holds no email or no user document
    matches it.  On none, [require_login] raises the 307 redirect whose
    location is [/login?next=] followed by the request URL quoted with no
    safe characters; on a user, [require_login] returns that user. *)
Theorem require_login_spec (request : Request) (w : World) :
  let user_email := dict_get (session request) "user_email" in
  exists o,
    get_current_user request w = (Ok o, w)
    /\ (o = None
        <-> truthy user_email = false
            \/ List.find (matches "email" user_email) (users w) = None)
    /\ require_login request w
       = match o with
         | Some user => (Ok user, w)
         | None => (Raise (login_redirect request), w)
         end.
Proof.
  intros user_email.
  destruct (get_current_user_resolves request w) as (o & E & Hnone & Hsome).
  exists o. split; [done|]. split; [done|].
  unfold require_login, bind. rewrite E.
  destruct o as [u|]; [|done].
  simpl. by rewrite (Hsome u eq_refl).
Qed.

Lemma upper_hex_digit_safe (d : N) : always_safe (upper_hex_digit d) = true.
Proof.
  destruct d as [|p]; [reflexivity|].
  do 4 (try destruct p as [p|p|]); reflexivity.
Qed.

Lemma quote_encoded (s : string) :
  string_forall url_encoded_char (quote s "") = true.
Proof.
  induction s as [|c s IH]; [done|]. cbn [quote mem_char].
  rewrite orb_false_r. destruct (always_safe c) eqn:Hc.
  - cbn [string_forall]. rewrite IH. unfold url_encoded_char. by rewrite Hc.
  - cbn [string_forall]. rewrite IH. unfold url_encoded_char.
    by rewrite !upper_hex_digit_safe.
Qed.

(** ** Logout *)

(** C9. [handle_logout] answers the 303 redirect to [/] with the empty
    session and leaves the world alone, whatever the session was; with that
    session [get_current_user] answers none; and a second logout on it
    gives the same response, session and world as the first. *)
Theorem handle_logout_spec (request : Request) (w : World) :
  let cleared := mkRequest ∅ (url request) in
  handle_logout request w
  = (Ok (RedirectResponse "/" HTTP_303_SEE_OTHER, session cleared), w)
  /\ get_current_user cleared w = (Ok None, w)
  /\ handle_logout cleared w = handle_logout request w.
Proof. by repeat split. Qed.

(** ** Login *)

Lemma get_user_by_email_some_truthy (email : string) (w : World) (u : doc) :
  get_user_by_email (VStr email) w = (Ok (Some u), w) ->
  dict_truthy u = true.
Proof.
  rewrite get_user_by_email_run.
  destruct (List.find _ _) as [d0|] eqn:Hf; [|done].
  destruct (dict_truthy d0) eqn:Hd; [|done]. intros [= <-].
  by apply mongo_id_serializer_truthy.
Qed.

Lemma handle_login_absent (request : Request)
    (email password next_url : string) (w : World) :
  get_user_by_email (VStr email) w = (Ok None, w) ->
  handle_login request email password next_url w
  = (Ok (RedirectResponse "/login?error=1" HTTP_303_SEE_OTHER,
         session request), w).
Proof. intros E. unfold handle_login, bind. by rewrite E. Qed.

Lemma handle_login_mismatch (request : Request)
    (email password next_url : string) (w : World) :
  password_mismatch email password w ->
  handle_login request email password next_url w
  = (Ok (RedirectResponse
           (if relative_url next_url
            then "/login?error=1" +:+ "&next=" +:+ quote next_url "/"
            else "/login?error=1")
           HTTP_303_SEE_OTHER,
         session request), w).
Proof.
  intros (u & digest & E & Hp & Hv).
  unfold handle_login. unfold bind at 1. rewrite E.
  cbn [opt_dict_truthy]. rewrite (get_user_by_email_some_truthy _ _ _ E).
  unfold bind at 1, dict_item. rewrite Hp. cbn [ret].
  unfold bind at 1. rewrite Hv. fold (relative_url next_url).
  by destruct (relative_url next_url).
Qed.

Lemma prefix_app (s t : string) : String.prefix s (s +:+ t) = true.
Proof.
  induction s as [|a s IH]; [by destruct t|].
  rewrite append_cons. cbn [String.prefix].
  by destruct (ascii_dec a a).
Qed.

Lemma contains_app (needle pre post : string) :
  contains needle (pre +:+ needle +:+ post) = true.
Proof.
  induction pre as [|c pre IH].
  - change ("" +:+ needle +:+ post) with (needle +:+ post).
    destruct (needle +:+ post) eqn:E; cbn [contains];
      by rewrite <- E, prefix_app.
  - rewrite append_cons. cbn [contains]. rewrite IH. apply orb_true_r.
Qed.

Lemma return_to_preserved_error (next_url : string) :
  return_to_preserved ("/login?error=1" +:+ "&next=" +:+ quote next_url "/")
    next_url.
Proof.
  unfold return_to_preserved.
  assert ("/login?error=1" +:+ "&next=" +:+ quote next_url "/"
          = "/login?error=1&" +:+ ("next=" +:+ quote next_url "/") +:+ "")
    as -> by (by rewrite append_empty_r).
  apply contains_app.
Qed.

(** C4, as the code has it. When no user exists for the email or the
    password does not verify, [handle_login] answers a 303 redirect to the
    login page with [error=1], with the session and the world as they were.
    When the user exists and the password does not verify, the location is
    [/login?error=1&next=<quoted return-to>] if the return-to URL is
    non-empty and starts with a slash, and plain [/login?error=1]
    otherwise. *)
Theorem handle_login_failure (request : Request)
    (email password next_url : string) (w : World) :
  login_fails email password w ->
  exists location,
    handle_login request email password next_url w
    = (Ok (RedirectResponse location HTTP_303_SEE_OTHER, session request), w)
    /\ login_error_page location
    /\ (password_mismatch email password w ->
        (relative_url next_url = true ->
         location = "/login?error=1&next=" +:+ quote next_url "/"
         /\ return_to_preserved location next_url)
        /\ (relative_url next_url = false -> location = "/login?error=1")).
Proof.
  intros [Habsent|Hmis].
  - exists "/login?error=1". split; [by apply handle_login_absent|].
    split; [done|]. intros (u & digest & E & _). congruence.
  - eexists. split; [by apply handle_login_mismatch|].
    destruct (relative_url next_url).
    + split; [apply prefix_app|]. intros _. split; [|done]. intros _.
      split; [done|]. apply return_to_preserved_error.
    + split; [done|]. intros _. by split.
Qed.

(** Fields other than the identifiers read the same on a returned user as
    on the stored document. *)
Lemma get_user_by_email_record (email : value) (w : World) (u : doc) :
  users_wf w ->
  get_user_by_email email w = (Ok (Some u), w) ->
  user_record u.
Proof.
  intros Hwf. rewrite get_user_by_email_run.
  destruct (List.find _ _) as [d0|] eqn:Hf; [|done].
  destruct (dict_truthy d0); [|done]. intros [= <-].
  apply find_some in Hf as [Hin _]. apply list_elem_of_In in Hin.
  destruct (Hwf users_collection d0 Hin eq_refl) as (Hn & He & h & Hh).
  unfold user_record. rewrite !mongo_id_serializer_other by done.
  split; [done|]. split; [done|]. by exists h.
Qed.

Lemma relative_url_spec (next_url : string) :
  relative_url next_url = true
  <-> next_url <> "" /\ String.prefix "/" next_url = true.
Proof.
  unfold relative_url, str_truthy. rewrite andb_true_iff, negb_true_iff.
  by rewrite String.eqb_neq.
Qed.

(** C6. In a store whose user documents are records, when the user is found
    and the password verifies against its digest, [handle_login] leaves the
    world alone, answers a 303 redirect and the session of the request with
    ["user_email"] and ["user_name"] set to the user's email and name; the
    target is the return-to URL if and only if that URL is non-empty and
    starts with a slash, and otherwise it is [/add-project]. *)
Theorem handle_login_success (request : Request)
    (email password next_url : string) (w : World) (u : doc) (digest : value) :
  users_wf w ->
  get_user_by_email (VStr email) w = (Ok (Some u), w) ->
  u !! "password" = Some digest ->
  verify_password password digest w = (Ok true, w) ->
  exists user_email user_name target,
    u !! "email" = Some user_email
    /\ u !! "name" = Some user_name
    /\ handle_login request email password next_url w
       = (Ok (RedirectResponse target HTTP_303_SEE_OTHER,
              <["user_name" := user_name]>
                (<["user_email" := user_email]> (session request))), w)
    /\ (target = next_url
        <-> next_url <> "" /\ String.prefix "/" next_url = true)
    /\ (target <> next_url -> target = "/add-project").
Proof.
  intros Hwf E Hp Hv.
  destruct (get_user_by_email_record _ _ _ Hwf E) as ([n Hn] & [e He] & _).
  exists e, n, (if relative_url next_url then next_url else "/add-project").
  split; [done|]. split; [done|]. split.
  - unfold handle_login. unfold bind at 1. rewrite E.
    cbn [opt_dict_truthy]. rewrite (get_user_by_email_some_truthy _ _ _ E).
    unfold bind at 1, dict_item. rewrite Hp. cbn [ret].
    unfold bind at 1. rewrite Hv.
    unfold bind at 1. rewrite He. cbn [ret].
    unfold bind at 1. rewrite Hn. cbn [ret].
    fold (relative_url next_url). by destruct (relative_url next_url).
  - pose proof (relative_url_spec next_url) as Hspec.
    destruct (relative_url next_url) eqn:Hr.
    + split; [|done]. split; [intros _; by apply Hspec|done].
    + split; [|done]. split.
      * intros <-. by vm_compute in Hr.
      * intros Hrel. apply Hspec in Hrel. done.
Qed.

(** ** What the adds may change *)

Lemma confined_refl (w : World) : confined w w.
Proof. by intros path Hne. Qed.

Lemma confined_trans (w1 w2 w3 : World) :
  confined w1 w2 -> confined w2 w3 -> confined w1 w3.
Proof.
  intros H12 H23 path Hne.
  assert (EqDecision Byte.byte) as Hdec
    by exact Stdlib.Strings.Byte.byte_eq_dec.
  destruct (decide (disk w2 !! path = disk w1 !! path)) as [E|E].
  - apply H23. by rewrite E.
  - by apply H12.
Qed.

Lemma effects_refl touched hashes (w : World) : effects touched hashes w w.
Proof. split; [done|done|done|apply confined_refl]. Qed.

Lemma effects_trans touched hashes (w1 w2 w3 : World) :
  effects touched hashes w1 w2 -> effects touched hashes w2 w3 ->
  effects touched hashes w1 w3.
Proof.
  intros [G1 O1 H1 D1] [G2 O2 H2 D2]. split.
  - intros c. destruct (G1 c) as [k1 E1], (G2 c) as [k2 E2].
    exists (k1 ++ k2)%list. by rewrite E2, E1, <- app_assoc.
  - intros c Hc. by rewrite O2, O1.
  - intros Hh. by rewrite H2, H1.
  - by eapply confined_trans.
Qed.

(** A step that changes no collection, no file and not the log. *)
Lemma effects_quiet touched hashes (w w' : World) :
  (forall c, documents c w' = documents c w) ->
  hashed w' = hashed w -> disk w' = disk w ->
  effects touched hashes w w'.
Proof.
  intros Hd Hh Hf. split.
  - intros c. by rewrite Hd.
  - intros c _. apply Hd.
  - done.
  - intros path. by rewrite Hf.
Qed.

Lemma steps_ret touched hashes {A} (a : A) :
  steps (effects touched hashes) (ret a).
Proof. intros w. apply effects_refl. Qed.

Lemma steps_raise touched hashes {A} (e : exn) :
  steps (effects touched hashes) (raise (A := A) e).
Proof. intros w. apply effects_refl. Qed.

Lemma steps_bind touched hashes {A B} (m : M A) (f : A -> M B) :
  steps (effects touched hashes) m ->
  (forall a, steps (effects touched hashes) (f a)) ->
  steps (effects touched hashes) (bind m f).
Proof.
  intros Hm Hf w. unfold bind. specialize (Hm w).
  destruct (m w) as [[a|e] w1]; simpl in *; [|done].
  eapply effects_trans; [exact Hm|apply Hf].
Qed.

Lemma steps_utcnow touched hashes : steps (effects touched hashes) utcnow.
Proof. intros w. apply effects_quiet; [by intros []|done..]. Qed.

Lemma steps_draw touched hashes : steps (effects touched hashes) draw.
Proof. intros w. apply effects_quiet; [by intros []|done..]. Qed.

Lemma steps_fresh_oid touched hashes : steps (effects touched hashes) fresh_oid.
Proof. intros w. apply effects_quiet; [by intros []|done..]. Qed.

Lemma steps_find_one touched hashes c k v :
  steps (effects touched hashes) (find_one c k v).
Proof. intros w. by apply effects_quiet. Qed.

Lemma steps_log_hash touched p : steps (effects touched true) (log_hash p).
Proof.
  intros w. split; [by intros []|by intros []|done|].
  intros path Hne. by destruct Hne.
Qed.

Lemma steps_append_document touched hashes c (d : doc) :
  touched c = true -> steps (effects touched hashes) (append_document c d).
Proof.
  intros Hc w. unfold append_document. simpl. split.
  - intros c'. destruct (decide (c = c')) as [<-|Hne].
    + rewrite documents_set_eq. by apply prefix_app_r.
    + by rewrite documents_set_ne.
  - intros c' Hc'. rewrite documents_set_ne; [done|]. congruence.
  - intros _. by destruct c.
  - intros path Hne. destruct c; by destruct Hne.
Qed.

Lemma steps_insert_one touched hashes c (d : doc) :
  touched c = true -> steps (effects touched hashes) (insert_one c d).
Proof.
  intros Hc. unfold insert_one. destruct (d !! "_id") as [v|].
  - apply steps_bind; [apply steps_find_one|]. intros [x|].
    + apply steps_raise.
    + by apply steps_append_document.
  - apply steps_bind; [apply steps_fresh_oid|]. intros oid.
    by apply steps_append_document.
Qed.

(** The generated name has no slash in it, whatever the client's filename. *)
Lemma generated_name_flat (w : World) (fname : string) :
  mem_char "/"%char (generated_name w fname) = false.
Proof.
  unfold generated_name. rewrite mem_char_app.
  rewrite (hex_string_avoids "/"%char _ eq_refl (hex_fixed_is_hex _ _)).
  destruct (splitext_extension fname) as [->|(t & -> & _ & Ht)]; [done|].
  simpl. by rewrite Ht.
Qed.

Lemma steps_save_upload_file touched hashes upload_file :
  steps (effects touched hashes) (save_upload_file upload_file).
Proof.
  intros w.
  destruct upload_file as [f|]; [|apply effects_refl].
  destruct (filename f) as [fname|] eqn:Hf.
  2:{ simpl. rewrite Hf. apply effects_refl. }
  destruct (decide (fname = "")) as [->|Hne].
  { simpl. rewrite Hf. apply effects_refl. }
  rewrite (save_upload_file_writes f fname w Hf Hne). simpl. split.
  - by intros [].
  - by intros [].
  - done.
  - intros path Hpath. simpl in Hpath.
    exists (generated_name w fname). split; [|apply generated_name_flat].
    destruct (decide (UPLOAD_DIR +:+ "/" +:+ generated_name w fname = path))
      as [<-|Hne']; [done|].
    by rewrite lookup_insert_ne in Hpath.
Qed.

Lemma steps_get_user_by_email touched hashes email :
  steps (effects touched hashes) (get_user_by_email email).
Proof.
  intros w. rewrite get_user_by_email_run. simpl. apply effects_refl.
Qed.

Lemma steps_get_password_hash touched password :
  steps (effects touched true) (get_password_hash password).
Proof.
  destruct password as [| |p| | |]; try apply steps_raise.
  unfold get_password_hash.
  destruct (hash_refuses p); [apply steps_raise|].
  apply steps_bind; [apply steps_draw|]. intros salt.
  apply steps_bind; [apply steps_log_hash|]. intros; apply steps_ret.
Qed.

Ltac steps_step :=
  first
    [ apply steps_ret
    | apply steps_raise
    | apply steps_utcnow
    | apply steps_save_upload_file
    | apply steps_get_user_by_email
    | apply steps_get_password_hash
    | apply steps_insert_one; reflexivity
    | apply steps_bind; [|intros ?] ].

Lemma steps_add_project data image_file :
  steps (effects (only [projects_collection]) false)
    (add_project data image_file).
Proof. unfold add_project. repeat steps_step. Qed.

Lemma steps_add_gallery_item data image_file :
  steps (effects (only [gallery_collection]) false)
    (add_gallery_item data image_file).
Proof. unfold add_gallery_item. repeat steps_step. Qed.

Lemma steps_add_blog data image_file :
  steps (effects (only [blogs_collection]) false) (add_blog data image_file).
Proof. unfold add_blog. repeat steps_step. Qed.

Lemma steps_add_member member_data photo_file resume_file :
  steps (effects (only [members_collection; users_collection]) true)
    (add_member member_data photo_file resume_file).
Proof.
  unfold add_member, dict_pop.
  apply steps_bind; [apply steps_utcnow|]. intros now.
  apply steps_bind.
  { destruct (file_truthy photo_file); repeat steps_step. }
  intros d1. apply steps_bind.
  { destruct (file_truthy resume_file); repeat steps_step. }
  intros d2. apply steps_bind; [by apply steps_insert_one|].
  intros _. destruct (truthy _); [|apply steps_ret].
  destruct (negb _); [apply steps_ret|].
  apply steps_bind; [apply steps_get_user_by_email|].
  intros existing_user.
  destruct (match existing_user with Some u => dict_truthy u | None => false end);
    [apply steps_ret|].
  repeat steps_step.
Qed.

(** X1. The store is append-only under every add: whatever an add is given,
    and whether it returns or raises, each collection afterwards starts
    with exactly the documents it had, in the same order. *)
Theorem adds_append_only (c : collection) (w : World) :
  (forall data f,
     documents c w `prefix_of` documents c (snd (add_project data f w)))
  /\ (forall data p r,
        documents c w `prefix_of` documents c (snd (add_member data p r w)))
  /\ (forall data f,
        documents c w `prefix_of` documents c (snd (add_gallery_item data f w)))
  /\ (forall data f,
        documents c w `prefix_of` documents c (snd (add_blog data f w))).
Proof.
  split; [|split; [|split]]; intros data.
  - intros f. apply (ef_grows _ _ _ _ (steps_add_project data f w)).
  - intros p r. apply (ef_grows _ _ _ _ (steps_add_member data p r w)).
  - intros f. apply (ef_grows _ _ _ _ (steps_add_gallery_item data f w)).
  - intros f. apply (ef_grows _ _ _ _ (steps_add_blog data f w)).
Qed.

Ltac not_listed :=
  rewrite ?not_elem_of_cons; repeat split; try done; apply not_elem_of_nil.

Lemma only_out (cs : list collection) (c : collection) :
  c ∉ cs -> only cs c = false.
Proof. intros Hc. by apply bool_decide_eq_false. Qed.

(** X2. Each add writes to its own collection only: [add_project],
    [add_gallery_item] and [add_blog] leave every other collection and the
    hasher's log as they were, and [add_member] leaves projects, gallery and
    blogs as they were. *)
Theorem adds_touch_own_collection (c : collection) (w : World) :
  (forall data f,
     let w' := snd (add_project data f w) in
     (c <> projects_collection -> documents c w' = documents c w)
     /\ hashed w' = hashed w)
  /\ (forall data f,
        let w' := snd (add_gallery_item data f w) in
        (c <> gallery_collection -> documents c w' = documents c w)
        /\ hashed w' = hashed w)
  /\ (forall data f,
        let w' := snd (add_blog data f w) in
        (c <> blogs_collection -> documents c w' = documents c w)
        /\ hashed w' = hashed w)
  /\ (forall data p r,
        c <> members_collection -> c <> users_collection ->
        documents c (snd (add_member data p r w)) = documents c w).
Proof.
  split; [|split; [|split]]; intros data.
  - intros f. destruct (steps_add_project data f w) as [_ Ho Hh _].
    split; [|by apply Hh]. intros Hc. apply Ho, only_out. not_listed.
  - intros f. destruct (steps_add_gallery_item data f w) as [_ Ho Hh _].
    split; [|by apply Hh]. intros Hc. apply Ho, only_out. not_listed.
  - intros f. destruct (steps_add_blog data f w) as [_ Ho Hh _].
    split; [|by apply Hh]. intros Hc. apply Ho, only_out. not_listed.
  - intros p r Hm Hu. destruct (steps_add_member data p r w) as [_ Ho _ _].
    apply Ho, only_out. not_listed.
Qed.

(** X3. No upload escapes the upload directory: after [save_upload_file] or
    any add, every path whose content changed is [uploads/<name>] with no
    slash in [<name>], whatever filename the client sent. *)
Theorem writes_stay_in_upload_dir (w : World) :
  (forall upload_file, confined w (snd (save_upload_file upload_file w)))
  /\ (forall data f, confined w (snd (add_project data f w)))
  /\ (forall data p r, confined w (snd (add_member data p r w)))
  /\ (forall data f, confined w (snd (add_gallery_item data f w)))
  /\ (forall data f, confined w (snd (add_blog data f w))).
Proof.
  split; [|split; [|split; [|split]]].
  - intros f.
    apply (ef_disk _ _ _ _ (steps_save_upload_file (fun _ => false) false f w)).
  - intros data f. apply (ef_disk _ _ _ _ (steps_add_project data f w)).
  - intros data p r. apply (ef_disk _ _ _ _ (steps_add_member data p r w)).
  - intros data f. apply (ef_disk _ _ _ _ (steps_add_gallery_item data f w)).
  - intros data f. apply (ef_disk _ _ _ _ (steps_add_blog data f w)).
Qed.

(** ** One user per email *)

(** What [admin_part] adds to the users collection, if anything: one
    document with the form's email, which matched no user before. *)
Lemma admin_part_new_user (is_admin name email password : value) (w : World) :
  exists r w',
    admin_part is_admin name email password w = (r, w')
    /\ (users w' = users w
        \/ exists u : doc,
             users w' = (users w ++ [u])%list
             /\ dict_get u "email" = email
             /\ truthy email = true
             /\ List.find (matches "email" email) (users w) = None).
Proof.
  destruct (truthy is_admin) eqn:Ha.
  2:{ eexists _, _. rewrite admin_part_plain by done. auto. }
  destruct (truthy name && truthy email && truthy password) eqn:Hall.
  2:{ eexists _, _. rewrite admin_part_incomplete by done. auto. }
  destruct (List.find (matches "email" email) (users w)) as [u|] eqn:Hf.
  { eexists _, _. erewrite admin_part_found by done. auto. }
  assert ((exists p, password = VStr p) \/ forall p, password <> VStr p)
    as [[p ->]|Hp] by (destruct password; eauto).
  - destruct (hash_refuses p) eqn:Href.
    { eexists _, _. rewrite admin_part_refused by done. auto. }
    eexists _, _. rewrite admin_part_create by done.
    split; [reflexivity|]. right. eexists. split; [reflexivity|].
    split; [by vm_compute|]. split; [|done].
    by apply andb_true_iff in Hall as [[_ He]%andb_true_iff _].
  - eexists _, _. rewrite admin_part_not_string by done. auto.
Qed.

(** A user that does not match a query other than [None] has another email. *)
Lemma matches_false_email (email : value) (u : doc) :
  truthy email = true ->
  matches "email" email u = false ->
  dict_get u "email" <> email.
Proof.
  intros He Hm Heq. unfold matches, dict_get in *.
  destruct (u !! "email") as [x|]; simpl in *.
  - subst x. apply orb_false_iff in Hm as [Hm _].
    by apply bool_decide_eq_false in Hm.
  - subst email. done.
Qed.

Lemma distinct_emails_users (w w' : World) :
  users w' = users w -> distinct_emails w -> distinct_emails w'.
Proof. unfold distinct_emails. by intros ->. Qed.

(** ** add_member: the paths that succeed *)

Lemma email_unused_find (w : World) (email : value) :
  email_unused w email ->
  List.find (matches "email" email) (users w) = None.
Proof.
  intros Hun. destruct (List.find _ _) as [u|] eqn:Hf; [|done].
  apply find_some in Hf as [Hin Hm]. apply list_elem_of_In in Hin.
  by rewrite (Hun u Hin) in Hm.
Qed.

Lemma find_app_new {A} (f : A -> bool) (l : list A) (x : A) :
  List.find f l = None -> f x = true -> List.find f (l ++ [x]) = Some x.
Proof.
  induction l as [|a l IH]; simpl; intros Hl Hx; [by rewrite Hx|].
  destruct (f a); [done|]. by apply IH.
Qed.

(** [add_member] for a new administrator, step by step. *)
Lemma add_member_admin_run (member_data : doc)
    (photo_file resume_file : option UploadFile) (w : World) (p : string) :
  truthy (form_admin member_data) = true ->
  truthy (dict_get member_data "name") = true ->
  truthy (dict_get member_data "email") = true ->
  dict_get member_data "password" = VStr p -> p <> "" ->
  hash_refuses p = false ->
  email_unused w (dict_get member_data "email") ->
  exists (d : doc) salt t (w' : World),
    add_member member_data photo_file resume_file w = (Ok success_admin, w')
    /\ members w' = (members w ++ [<["_id" := VObjectId (oids w)]> d])%list
    /\ member_shape member_data photo_file resume_file d
    /\ users w'
       = (users w
          ++ [admin_user_doc (N.succ (oids w)) (dict_get member_data "name")
                (dict_get member_data "email") (bcrypt_hash salt p) t])%list
    /\ hashed w' = p :: hashed w.
Proof.
  intros Ha Hn He Hp Hne Hacc Hun.
  destruct (add_member_run member_data photo_file resume_file w)
    as (d & w3 & F & Sh & E).
  destruct (stored_members d w w3 F) as (Hm & Hu & Hh & Ho).
  set (ws := stored members_collection d w3) in *.
  exists d, (entropy (draws ws)), (clock (ticks ws)).
  eexists. rewrite E, Hp, admin_part_create.
  - split; [reflexivity|]. simpl. unfold admin_user_doc, new_user_doc.
    rewrite <- Hm, <- Hu, <- Hh. cbn in Ho.
    replace (N.succ (oids w)) with (N.succ (oids w3)) by (by destruct F).
    done.
  - done.
  - rewrite Hn, He. simpl. by apply negb_true_iff, String.eqb_neq.
  - rewrite Hu. by apply email_unused_find.
  - done.
Qed.

(** ** One user per email, for calls run one at a time *)

Lemma admin_part_cut (is_admin name email password : value) (w : World) :
  admin_part is_admin name email password w
  = (decided <- admin_check is_admin name email password ;;
     admin_finish name email password decided) w.
Proof.
  unfold admin_part, admin_check.
  destruct (truthy is_admin); [|done].
  destruct (negb _); [done|].
  unfold bind at 1 5 6.
  destruct (get_user_by_email email w) as [[u|e] w1]; [|done].
  by destruct (opt_dict_truthy u).
Qed.

Lemma admin_check_miss (is_admin name email password : value) (w : World) :
  truthy is_admin = true ->
  truthy name && truthy email && truthy password = true ->
  List.find (matches "email" email) (users w) = None ->
  admin_check is_admin name email password w = (Ok None, w).
Proof.
  intros Ha Hall Hf. unfold admin_check. rewrite Ha, Hall. cbn [negb].
  unfold bind. by rewrite (get_user_by_email_miss _ _ Hf).
Qed.

Lemma admin_finish_create (name email : value) (p : string) (w : World) :
  hash_refuses p = false ->
  admin_finish name email (VStr p) None w
  = (Ok success_admin,
     stored users_collection (new_user_doc name email p w) (after_hash p w)).
Proof.
  intros Hacc. unfold admin_finish, get_password_hash, bind at 1.
  rewrite Hacc. reflexivity.
Qed.

Lemma same_email_twice (w : World) (l : list doc) (u1 u2 : doc) :
  users w = (l ++ [u1; u2])%list ->
  dict_get u1 "email" = dict_get u2 "email" ->
  ~ distinct_emails w.
Proof.
  unfold distinct_emails. intros -> He.
  rewrite map_app. intros (_ & _ & Hnd)%NoDup_app.
  cbn [List.map] in Hnd. rewrite He in Hnd.
  apply NoDup_cons in Hnd as [Hin _]. apply Hin. by left.
Qed.

(** Both lookups answered before either insert: both calls create a user. *)
Lemma lookups_first_run (is_admin1 is_admin2 name1 name2 email : value)
    (p1 p2 : string) (w : World) :
  truthy is_admin1 = true -> truthy is_admin2 = true ->
  truthy name1 = true -> truthy name2 = true -> truthy email = true ->
  p1 <> "" -> p2 <> "" ->
  hash_refuses p1 = false -> hash_refuses p2 = false ->
  email_unused w email ->
  exists salt1 salt2 t1 t2 w',
    lookups_first is_admin1 name1 email (VStr p1)
      is_admin2 name2 email (VStr p2) w
    = (Ok (success_admin, success_admin), w')
    /\ users w'
       = (users w
          ++ [admin_user_doc (oids w) name1 email (bcrypt_hash salt1 p1) t1;
              admin_user_doc (N.succ (oids w)) name2 email
                (bcrypt_hash salt2 p2) t2])%list
    /\ ~ distinct_emails w'.
Proof.
  intros Hi1 Hi2 Hn1 Hn2 He Hp1 Hp2 Ha1 Ha2 Hun.
  pose proof (email_unused_find _ _ Hun) as Hf.
  assert (forall n p, truthy n = true -> p <> "" ->
            truthy n && truthy email && truthy (VStr p) = true) as Hall.
  { intros n p -> Hp. rewrite He. simpl.
    by apply negb_true_iff, String.eqb_neq. }
  unfold lookups_first.
  unfold bind at 1. rewrite admin_check_miss by auto.
  unfold bind at 1. rewrite admin_check_miss by auto.
  unfold bind at 1. rewrite admin_finish_create by done.
  unfold bind at 1. rewrite admin_finish_create by done.
  eexists _, _, _, _, _. split; [reflexivity|].
  split; [cbn; by rewrite <- app_assoc|].
  eapply same_email_twice; [cbn; by rewrite <- app_assoc|].
  by vm_compute.
Qed.

(** X4. Email uniqueness rests on [add_member]'s lookup, and so on calls
    not overlapping. When every add runs to its end before the next write
    to the store, none gives two users the same email: emails that are
    pairwise distinct still are after the call, whatever it was given and
    whether it returned or raised. But [add_member] is its member insert
    followed by the lookup and, past the awaits, by the hash and the insert
    of the user document; nothing in the insert refuses a repeated email.
    So when two calls for one email no user has both get their lookup
    answered before either inserts, both answer success and the users
    collection ends with two documents bearing that email. *)
Theorem distinct_emails_need_isolation :
  (forall data f, preserves distinct_emails (add_project data f))
  /\ (forall data p r, preserves distinct_emails (add_member data p r))
  /\ (forall data f, preserves distinct_emails (add_gallery_item data f))
  /\ (forall data f, preserves distinct_emails (add_blog data f))
  /\ (forall data p r w,
        exists d w3,
          frame w w3
          /\ add_member data p r w
             = (decided <- admin_check (form_admin data)
                             (dict_get data "name") (dict_get data "email")
                             (dict_get data "password") ;;
                admin_finish (dict_get data "name") (dict_get data "email")
                  (dict_get data "password") decided)
                 (stored members_collection d w3))
  /\ (forall is_admin1 is_admin2 name1 name2 email p1 p2 w,
        truthy is_admin1 = true -> truthy is_admin2 = true ->
        truthy name1 = true -> truthy name2 = true -> truthy email = true ->
        p1 <> "" -> p2 <> "" ->
        hash_refuses p1 = false -> hash_refuses p2 = false ->
        email_unused w email ->
        exists salt1 salt2 t1 t2 w',
          lookups_first is_admin1 name1 email (VStr p1)
            is_admin2 name2 email (VStr p2) w
          = (Ok (success_admin, success_admin), w')
          /\ users w'
             = (users w
                ++ [admin_user_doc (oids w) name1 email
                      (bcrypt_hash salt1 p1) t1;
                    admin_user_doc (N.succ (oids w)) name2 email
                      (bcrypt_hash salt2 p2) t2])%list
          /\ ~ distinct_emails w').
Proof.
  split; [|split; [|split; [|split; [|split]]]].
  1-4: intros data.
  - intros f w. apply distinct_emails_users.
    apply (ef_only _ _ _ _ (steps_add_project data f w) users_collection).
    apply only_out. not_listed.
  - intros p r w Hw.
    destruct (add_member_run data p r w) as (d & w3 & F & _ & E).
    destruct (stored_members d w w3 F) as (_ & Hu & _).
    destruct (admin_part_new_user (form_admin data) (dict_get data "name")
                (dict_get data "email") (dict_get data "password")
                (stored members_collection d w3))
      as (res & w' & E' & Hcases).
    rewrite E, E'. simpl.
    destruct Hcases as [Hsame|(u & Husers & Hemail & He & Hnone)].
    + eapply distinct_emails_users; [|exact Hw]. congruence.
    + unfold distinct_emails in *. rewrite Husers, Hu, map_app.
      apply NoDup_app. split; [done|]. split; [|apply NoDup_singleton].
      intros x Hx [= ->]%list_elem_of_singleton.
      apply list_elem_of_In, in_map_iff in Hx as (u0 & Hu0 & Hin).
      rewrite Hu in Hnone.
      pose proof (find_none _ _ Hnone u0 Hin) as Hm.
      apply (matches_false_email _ _ He Hm). congruence.
  - intros f w. apply distinct_emails_users.
    apply (ef_only _ _ _ _ (steps_add_gallery_item data f w) users_collection).
    apply only_out. not_listed.
  - intros f w. apply distinct_emails_users.
    apply (ef_only _ _ _ _ (steps_add_blog data f w) users_collection).
    apply only_out. not_listed.
  - intros data p r w.
    destruct (add_member_run data p r w) as (d & w3 & F & _ & E).
    exists d, w3. split; [done|]. by rewrite E, admin_part_cut.
  - intros. by apply lookups_first_run.
Qed.

(** X5. A new administrator: with the admin flag set, name and email
    non-empty, a non-empty string password that the hasher accepts (no NUL
    character, nothing else it refuses) and no user matching the email,
    [add_member] returns the success result, appends the member document to
    members and one user document to users (name, email, the hasher's
    digest, a creation time, the next identifier), and hands exactly that
    password to the hasher; a lookup of the email then returns that user,
    with the digest and not the password. *)
Theorem add_member_creates_admin (member_data : doc)
    (photo_file resume_file : option UploadFile) (w : World) (p : string) :
  truthy (form_admin member_data) = true ->
  truthy (dict_get member_data "name") = true ->
  truthy (dict_get member_data "email") = true ->
  dict_get member_data "password" = VStr p -> p <> "" ->
  hash_refuses p = false ->
  email_unused w (dict_get member_data "email") ->
  exists (d : doc) salt t (w' : World) (u : doc),
    add_member member_data photo_file resume_file w = (Ok success_admin, w')
    /\ members w' = (members w ++ [<["_id" := VObjectId (oids w)]> d])%list
    /\ member_shape member_data photo_file resume_file d
    /\ users w'
       = (users w
          ++ [admin_user_doc (N.succ (oids w)) (dict_get member_data "name")
                (dict_get member_data "email") (bcrypt_hash salt p) t])%list
    /\ hashed w' = p :: hashed w
    /\ get_user_by_email (dict_get member_data "email") w' = (Ok (Some u), w')
    /\ u !! "email" = Some (dict_get member_data "email")
    /\ u !! "password" = Some (VStr (bcrypt_hash salt p)).
Proof.
  intros Ha Hn He Hp Hne Hacc Hun.
  destruct (add_member_admin_run member_data photo_file resume_file w p
              Ha Hn He Hp Hne Hacc Hun)
    as (d & salt & t & w' & E & Hm & Sh & Hu & Hh).
  set (ud := admin_user_doc _ _ _ _ _) in Hu.
  exists d, salt, t, w', (mongo_id_serializer ud).
  do 5 (split; [done|]).
  split.
  - apply get_user_by_email_hit; [by apply truthy_not_none|].
    rewrite Hu. apply find_app_new; [by apply email_unused_find|].
    apply matches_equal. subst ud. by vm_compute.
  - split; rewrite mongo_id_serializer_other by done; subst ud;
      by vm_compute.
Qed.

(** X6. An ordinary member: with the admin flag absent or false,
    [add_member] returns the member success result and appends the member
    document; the users collection and the hasher's log are as they were,
    whatever name, email and password the form holds. *)
Theorem add_member_plain (member_data : doc)
    (photo_file resume_file : option UploadFile) (w : World) :
  truthy (form_admin member_data) = false ->
  exists (d : doc) (w' : World),
    add_member member_data photo_file resume_file w = (Ok success_member, w')
    /\ members w' = (members w ++ [<["_id" := VObjectId (oids w)]> d])%list
    /\ member_shape member_data photo_file resume_file d
    /\ users w' = users w
    /\ hashed w' = hashed w.
Proof.
  intros Ha.
  destruct (add_member_run member_data photo_file resume_file w)
    as (d & w3 & F & Sh & E).
  destruct (stored_members d w w3 F) as (Hm & Hu & Hh & _).
  exists d, (stored members_collection d w3).
  by rewrite E, admin_part_plain.
Qed.

(** X7. The same administrator form twice, with a password the hasher
    accepts: from a store where no user matches the email, when the two
    calls run one after the other, the first [add_member] succeeds and the
    second
    returns the duplicate-email error; together they add two member
    documents and exactly one user document. *)
Theorem add_member_twice (member_data : doc)
    (photo1 resume1 photo2 resume2 : option UploadFile) (w : World)
    (p : string) :
  truthy (form_admin member_data) = true ->
  truthy (dict_get member_data "name") = true ->
  truthy (dict_get member_data "email") = true ->
  dict_get member_data "password" = VStr p -> p <> "" ->
  hash_refuses p = false ->
  email_unused w (dict_get member_data "email") ->
  exists (w1 w2 : World) (m1 m2 u : doc),
    add_member member_data photo1 resume1 w = (Ok success_admin, w1)
    /\ add_member member_data photo2 resume2 w1 = (Ok error_duplicate, w2)
    /\ members w2 = (members w ++ [m1; m2])%list
    /\ users w2 = (users w ++ [u])%list
    /\ u !! "email" = Some (dict_get member_data "email").
Proof.
  intros Ha Hn He Hp Hne Hacc Hun.
  destruct (add_member_admin_run member_data photo1 resume1 w p
              Ha Hn He Hp Hne Hacc Hun)
    as (d1 & salt & t & w1 & E1 & Hm1 & _ & Hu1 & _).
  destruct (add_member_run member_data photo2 resume2 w1)
    as (d2 & w3 & F & _ & E2).
  destruct (stored_members d2 w1 w3 F) as (Hm2 & Hu2 & _).
  eexists w1, (stored members_collection d2 w3), _, _, _.
  split; [exact E1|]. split.
  - rewrite E2. apply admin_part_duplicate; [done| |].
    + rewrite Hn, He, Hp. simpl. by apply negb_true_iff, String.eqb_neq.
    + eexists. rewrite Hu2, Hu1. split.
      * apply elem_of_app. right. by left.
      * by vm_compute.
  - rewrite Hm2, Hm1, Hu2, Hu1, <- app_assoc. split; [reflexivity|].
    split; [reflexivity|]. by vm_compute.
Qed.

(** ** Login and the session *)

(** [handle_login] when the user is found and the digest verifies. *)
Lemma handle_login_accepts (request : Request)
    (email password next_url : string) (w : World) (u : doc)
    (digest : string) (user_email user_name : value) :
  get_user_by_email (VStr email) w = (Ok (Some u), w) ->
  u !! "password" = Some (VStr digest) ->
  bcrypt_verify password digest = true ->
  u !! "email" = Some user_email ->
  u !! "name" = Some user_name ->
  handle_login request email password next_url w
  = (Ok (RedirectResponse (login_target next_url) HTTP_303_SEE_OTHER,
         logged_in request user_email user_name), w).
Proof.
  intros E Hp Hv He Hn.
  unfold handle_login. unfold bind at 1. rewrite E.
  cbn [opt_dict_truthy]. rewrite (get_user_by_email_some_truthy _ _ _ E).
  unfold bind at 1, dict_item. rewrite Hp. cbn [ret].
  unfold bind at 1, verify_password. cbn [ret]. rewrite Hv.
  unfold bind at 1. rewrite He. cbn [ret].
  unfold bind at 1. rewrite Hn. cbn [ret].
  unfold login_target. fold (relative_url next_url).
  by destruct (relative_url next_url).
Qed.

(** With the session a login left, the gate resolves the same user. *)
Lemma logged_in_resolves (request : Request) (email : string)
    (user_name : value) (w : World) (u : doc) (url' : string) :
  email <> "" ->
  get_user_by_email (VStr email) w = (Ok (Some u), w) ->
  let request' := mkRequest (logged_in request (VStr email) user_name) url' in
  get_current_user request' w = (Ok (Some u), w)
  /\ require_login request' w = (Ok u, w).
Proof.
  intros Hne E request'.
  assert (get_current_user request' w = (Ok (Some u), w)) as Hcur.
  { rewrite get_current_user_run. subst request'. cbn [session].
    unfold logged_in, dict_get.
    rewrite lookup_insert_ne by done. rewrite lookup_insert_eq. simpl.
    by rewrite (proj2 (String.eqb_neq _ _) Hne). }
  split; [done|]. unfold require_login, bind. rewrite Hcur.
  cbn [opt_dict_truthy]. by rewrite (get_user_by_email_some_truthy _ _ _ E).
Qed.

(** X8. Login, then the gate: when the user found for a non-empty email has
    that email, a name and a digest the password verifies against,
    [handle_login] answers the redirect and a session with which
    [get_current_user] resolves that same user and [require_login] lets the
    request through, on any URL. *)
Theorem login_then_current_user (request : Request)
    (email password next_url : string) (w : World) (u : doc)
    (digest : string) (user_name : value) :
  email <> "" ->
  get_user_by_email (VStr email) w = (Ok (Some u), w) ->
  u !! "email" = Some (VStr email) ->
  u !! "name" = Some user_name ->
  u !! "password" = Some (VStr digest) ->
  bcrypt_verify password digest = true ->
  exists response session',
    handle_login request email password next_url w
    = (Ok (response, session'), w)
    /\ forall url',
         get_current_user (mkRequest session' url') w = (Ok (Some u), w)
         /\ require_login (mkRequest session' url') w = (Ok u, w).
Proof.
  intros Hne E He Hn Hp Hv. eexists _, _. split.
  - by eapply handle_login_accepts.
  - intros url'. by apply logged_in_resolves.
Qed.

(** X9. Register, then log in: after [add_member] created an administrator
    with a non-empty string email and a non-empty password the hasher
    accepts, on a platform whose hasher verifies its own digests, [handle_login] with that email and password
    succeeds: it binds the session to the email and name of the form and
    redirects to the return-to URL or the landing page; with that session
    [require_login] lets requests through. *)
Theorem register_then_login (member_data : doc)
    (photo_file resume_file : option UploadFile) (w : World)
    (request : Request) (email p next_url : string) :
  (forall salt, bcrypt_verify p (bcrypt_hash salt p) = true) ->
  truthy (form_admin member_data) = true ->
  truthy (dict_get member_data "name") = true ->
  dict_get member_data "email" = VStr email -> email <> "" ->
  dict_get member_data "password" = VStr p -> p <> "" ->
  hash_refuses p = false ->
  email_unused w (VStr email) ->
  exists (w' : World) (u : doc),
    add_member member_data photo_file resume_file w = (Ok success_admin, w')
    /\ handle_login request email p next_url w'
       = (Ok (RedirectResponse (login_target next_url) HTTP_303_SEE_OTHER,
              logged_in request (VStr email) (dict_get member_data "name")),
          w')
    /\ forall url',
         require_login
           (mkRequest
              (logged_in request (VStr email) (dict_get member_data "name"))
              url') w'
         = (Ok u, w').
Proof.
  intros Hhasher Ha Hn He Hne Hp Hpne Hacc Hun.
  destruct (add_member_admin_run member_data photo_file resume_file w p)
    as (d & salt & t & w' & E & _ & _ & Hu & _); try done.
  { rewrite He. by apply negb_true_iff, String.eqb_neq. }
  { by rewrite He. }
  set (ud := admin_user_doc _ _ _ _ _) in Hu.
  assert (get_user_by_email (VStr email) w'
          = (Ok (Some (mongo_id_serializer ud)), w')) as Hfound.
  { apply get_user_by_email_hit; [done|]. rewrite Hu.
    apply find_app_new; [by apply email_unused_find|].
    apply matches_equal. subst ud. rewrite He. by vm_compute. }
  exists w', (mongo_id_serializer ud). split; [done|].
  assert (forall k v, k <> "_id" -> k <> "id" -> ud !! k = Some v ->
          mongo_id_serializer ud !! k = Some v) as Hfield.
  { intros k v ? ? <-. by apply mongo_id_serializer_other. }
  split.
  - eapply handle_login_accepts; [exact Hfound|..].
    + apply Hfield; [done..|]. subst ud. by vm_compute.
    + apply Hhasher.
    + apply Hfield; [done..|]. subst ud. rewrite He. by vm_compute.
    + apply Hfield; [done..|]. subst ud. by vm_compute.
  - intros url'. by apply logged_in_resolves.
Qed.

(** X10. Authentication reads only: whatever they are given and however
    they end, [get_current_user], [require_login], [handle_login],
    [handle_logout] and [serve_login] leave the world exactly as it was. *)
Theorem authentication_reads_only (request : Request) (w : World) :
  snd (get_current_user request w) = w
  /\ snd (require_login request w) = w
  /\ (forall email password next_url,
        snd (handle_login request email password next_url w) = w)
  /\ snd (handle_logout request w) = w
  /\ (forall next, snd (serve_login request next w) = w).
Proof.
  destruct (get_current_user_resolves request w) as (o & Hcur & _ & Hsome).
  split; [by rewrite Hcur|]. split; [|split; [|split]].
  - unfold require_login, bind. rewrite Hcur.
    by destruct (if opt_dict_truthy o then o else None).
  - intros email password next_url.
    unfold handle_login. unfold bind at 1.
    rewrite get_user_by_email_run.
    destruct (List.find _ _) as [d0|]; [|done].
    destruct (dict_truthy d0); [|done]. cbn [opt_dict_truthy].
    set (u := mongo_id_serializer d0).
    destruct (dict_truthy u); [|done].
    unfold bind at 1, dict_item.
    destruct (u !! "password") as [digest|]; [|done]. cbn [ret].
    unfold bind at 1.
    assert (exists r, verify_password password digest w = (r, w)) as [r ->]
      by (destruct digest; by eexists).
    destruct r as [[|]|e]; [|done|done].
    unfold bind at 1. destruct (u !! "email") as [ue|]; [|done]. cbn [ret].
    unfold bind at 1. destruct (u !! "name") as [un|]; [|done]. cbn [ret].
    by destruct (_ && _).
  - done.
  - intros next. unfold serve_login, bind. rewrite Hcur.
    by destruct (opt_dict_truthy o).
Qed.

(** ** Serialised documents, generated names, the login redirect *)

(** X11. [mongo_id_serializer] is idempotent: a document that went through
    it once comes back unchanged from a second pass; it has no ["_id"],
    carries the identifier's string form under ["id"] even when the stored
    document had an ["id"] field of its own, and has every other field of
    the stored document. *)
Theorem mongo_id_serializer_idempotent (d : doc) :
  mongo_id_serializer (mongo_id_serializer d) = mongo_id_serializer d
  /\ mongo_id_serializer d !! "_id" = None
  /\ (forall v, d !! "_id" = Some v ->
        mongo_id_serializer d !! "id" = Some (VStr (py_str v)))
  /\ (forall k, k <> "_id" -> k <> "id" ->
        mongo_id_serializer d !! k = d !! k).
Proof.
  split; [|split; [|split]].
  - apply mongo_id_serializer_no_internal, mongo_id_serializer_internal.
  - apply mongo_id_serializer_internal.
  - apply mongo_id_serializer_public.
  - apply mongo_id_serializer_other.
Qed.

Lemma hex_digit_inj (a b : N) :
  (a < 16)%N -> (b < 16)%N -> hex_digit a = hex_digit b -> a = b.
Proof.
  intros Ha Hb.
  destruct a as [|p]; [|do 4 (try destruct p as [p|p|]); try lia];
    (destruct b as [|q]; [|do 4 (try destruct q as [q|q|]); try lia]);
    (reflexivity || discriminate).
Qed.

Lemma hex_acc_inj (k : nat) (n m : N) (acc acc' : string) :
  (n < 16 ^ N.of_nat k)%N -> (m < 16 ^ N.of_nat k)%N ->
  String.length acc = String.length acc' ->
  hex_acc k n acc = hex_acc k m acc' ->
  n = m /\ acc = acc'.
Proof.
  revert n m acc acc'. induction k as [|k IH]; intros n m acc acc' Hn Hm Hl E.
  - simpl in *. split; [lia|done].
  - rewrite Nat2N.inj_succ, N.pow_succ_r' in Hn, Hm. simpl in E.
    apply IH in E as [Hq [= Hd ->]].
    + split; [|done].
      apply hex_digit_inj in Hd; [|by apply N.mod_lt..].
      rewrite (N.div_mod n 16), (N.div_mod m 16) by done. congruence.
    + apply N.Div0.div_lt_upper_bound. lia.
    + apply N.Div0.div_lt_upper_bound. lia.
    + simpl. congruence.
Qed.

Lemma append_inj_length (a b c d : string) :
  String.length a = String.length b -> a +:+ c = b +:+ d -> a = b.
Proof.
  revert b. induction a as [|x a IH]; intros [|y b]; try done.
  rewrite !append_cons. intros [= Hl] [= -> E]. f_equal. by apply IH.
Qed.

(** X12. Two uploads get the same generated name only if their random
    tokens agree on all 128 bits, whatever the filenames: distinct tokens
    give distinct stored files. *)
Theorem generated_names_collide_on_tokens (w1 w2 : World) (f1 f2 : string) :
  generated_name w1 f1 = generated_name w2 f2 ->
  (entropy (draws w1) mod 2 ^ 128 = entropy (draws w2) mod 2 ^ 128)%N.
Proof.
  unfold generated_name. intros E.
  apply append_inj_length in E; [|by rewrite !hex_fixed_length].
  unfold hex_fixed in E.
  apply hex_acc_inj in E as [E _]; [done| | |done].
  - change (16 ^ N.of_nat 32)%N with (2 ^ 128)%N. by apply N.mod_lt.
  - change (16 ^ N.of_nat 32)%N with (2 ^ 128)%N. by apply N.mod_lt.
Qed.

Lemma string_forall_mem (P : ascii -> bool) (c : ascii) (s : string) :
  string_forall P s = true -> P c = false -> mem_char c s = false.
Proof.
  intros Hs Hc. induction s as [|a s IH]; [done|].
  simpl in *. apply andb_true_iff in Hs as [Ha Hs].
  rewrite (IH Hs), orb_false_r.
  destruct (ascii_eqb a c) eqn:E; [|done].
  apply ascii_eqb_eq in E. congruence.
Qed.

(** X13. The redirect of [require_login] cannot be bent by the request URL:
    whenever [require_login] raises, it raises the 307 redirect to
    [/login?next=<q>] where [<q>] has none of the characters
    [& ? # / = + :] nor a space, whatever the URL was. *)
Theorem require_login_redirect_encoded (request : Request) (w w' : World)
    (e : exn) :
  require_login request w = (Raise e, w') ->
  exists q,
    e = HTTPException HTTP_307_TEMPORARY_REDIRECT ("/login?next=" +:+ q)
    /\ forall c, mem_char c "&?#/=+: " = true -> mem_char c q = false.
Proof.
  intros E.
  destruct (get_current_user_resolves request w) as (o & Hcur & _ & Hsome).
  unfold require_login, bind in E. rewrite Hcur in E.
  destruct (if opt_dict_truthy o then o else None); [done|].
  injection E as <- _. eexists. split; [reflexivity|].
  intros c Hc. eapply string_forall_mem; [apply quote_encoded|].
  cbn [mem_char] in Hc. rewrite orb_false_r in Hc.
  repeat (apply orb_true_iff in Hc as [Hc|Hc];
          [apply ascii_eqb_eq in Hc; by subst c|]).
  apply ascii_eqb_eq in Hc. by subst c.
Qed.

(** ** Comma-separated form fields *)

Lemma split_on_nonempty (sep : ascii) (s : string) : split_on sep s <> [].
Proof.
  induction s as [|c s IH]; simpl; [done|].
  destruct (ascii_eqb c sep); [done|]. by destruct (split_on sep s).
Qed.

Lemma split_on_length (sep : ascii) (s : string) :
  List.length (split_on sep s) = S (count_char sep s).
Proof.
  induction s as [|c s IH]; simpl; [done|].
  destruct (ascii_eqb c sep); simpl; [by rewrite IH|].
  pose proof (split_on_nonempty sep s).
  destruct (split_on sep s); [done|]. simpl in *. lia.
Qed.

Lemma concat_cons (sep a b : string) (l : list string) :
  String.concat sep (a :: b :: l) = a +:+ sep +:+ String.concat sep (b :: l).
Proof. reflexivity. Qed.

Lemma split_on_join (sep : ascii) (s : string) :
  String.concat (String sep "") (split_on sep s) = s.
Proof.
  induction s as [|c s IH]; [done|]. simpl split_on.
  pose proof (split_on_nonempty sep s) as Hne.
  destruct (ascii_eqb c sep) eqn:E.
  - apply ascii_eqb_eq in E. subst c.
    destruct (split_on sep s) as [|x xs]; [done|].
    by rewrite concat_cons, IH.
  - destruct (split_on sep s) as [|x xs]; [done|].
    destruct xs as [|y ys].
    + simpl in *. by rewrite IH.
    + rewrite concat_cons, append_cons, <- concat_cons. by rewrite IH.
Qed.

Lemma append_assoc (a b c : string) : (a +:+ b) +:+ c = a +:+ b +:+ c.
Proof. induction a as [|x a IH]; [done|]. by rewrite !append_cons, IH. Qed.

Lemma str_length_app (a b : string) :
  String.length (a +:+ b) = String.length a + String.length b.
Proof. induction a as [|x a IH]; [done|]. rewrite append_cons. simpl. lia. Qed.

Lemma rev_str_app (a b : string) : rev_str (a +:+ b) = rev_str b +:+ rev_str a.
Proof.
  induction a as [|x a IH].
  - change ("" +:+ b) with b. simpl. by rewrite append_empty_r.
  - rewrite append_cons. cbn [rev_str]. by rewrite IH, append_assoc.
Qed.

Lemma rev_str_involutive (s : string) : rev_str (rev_str s) = s.
Proof.
  induction s as [|x s IH]; [done|]. cbn [rev_str].
  by rewrite rev_str_app, IH.
Qed.

Lemma rev_str_length (s : string) : String.length (rev_str s) = String.length s.
Proof.
  induction s as [|x s IH]; [done|]. simpl. rewrite str_length_app, IH.
  simpl. lia.
Qed.

Lemma prefix_drop (x s : string) :
  String.prefix x s = true -> x +:+ drop_str (String.length x) s = s.
Proof.
  revert s. induction x as [|a x IH]; intros s; [by destruct s|].
  destruct s as [|b s]; [done|]. cbn [String.prefix].
  destruct (ascii_dec a b) as [->|]; [|done].
  intros Hp. rewrite append_cons. simpl. by rewrite IH.
Qed.

Lemma prefix_append (x r t : string) :
  String.prefix x r = true -> String.prefix x (r +:+ t) = true.
Proof.
  intros Hp. rewrite <- (prefix_drop x r Hp), append_assoc. apply prefix_app.
Qed.

Lemma drop_leading_some (ws : list string) (s s' : string) :
  drop_leading ws s = Some s' ->
  exists x, x ∈ ws /\ String.prefix x s = true
            /\ s' = drop_str (String.length x) s.
Proof.
  induction ws as [|x ws IH]; simpl; [done|].
  destruct (String.prefix x s) eqn:E.
  - intros [= <-]. exists x. split; [by left|done].
  - intros (y & Hy & ?)%IH. exists y. split; [by right|done].
Qed.

Lemma drop_leading_none (ws : list string) (s : string) :
  drop_leading ws s = None <-> forall x, x ∈ ws -> String.prefix x s = false.
Proof.
  induction ws as [|x ws IH]; simpl.
  - split; [|done]. by intros _ y Hy%elem_of_nil.
  - destruct (String.prefix x s) eqn:E.
    + split; [done|]. intros Hall. rewrite Hall in E; [done|by left].
    + rewrite IH. split.
      * intros Hall y [->|Hy]%elem_of_cons; auto.
      * intros Hall y Hy. apply Hall. by right.
Qed.

(** What [lstrip_fuel] leaves is the end of what it was given. *)
Lemma lstrip_fuel_suffix (ws : list string) (fuel : nat) (s : string) :
  exists pre, s = pre +:+ lstrip_fuel ws fuel s.
Proof.
  revert s. induction fuel as [|fuel IH]; intros s; [by exists ""|].
  simpl. destruct (drop_leading ws s) as [s'|] eqn:E; [|by exists ""].
  apply drop_leading_some in E as (x & _ & Hp & ->).
  destruct (IH (drop_str (String.length x) s)) as [pre Hpre].
  exists (x +:+ pre). rewrite append_assoc, <- Hpre. by rewrite prefix_drop.
Qed.

(** With enough fuel nothing of [ws] is left in front. *)
Lemma lstrip_fuel_clean (ws : list string) (fuel : nat) (s : string) :
  (forall x, x ∈ ws -> x <> "") ->
  String.length s <= fuel ->
  drop_leading ws (lstrip_fuel ws fuel s) = None.
Proof.
  intros Hws. revert s. induction fuel as [|fuel IH]; intros s Hlen.
  - destruct s; [|simpl in Hlen; lia]. simpl.
    apply drop_leading_none. intros x Hx. specialize (Hws x Hx).
    by destruct x.
  - simpl. destruct (drop_leading ws s) as [s'|] eqn:E; [|done].
    apply IH. apply drop_leading_some in E as (x & Hx & Hp & ->).
    apply prefix_drop in Hp. specialize (Hws x Hx).
    assert (String.length s
            = String.length x
              + String.length (drop_str (String.length x) s)) as Hs
      by (by rewrite <- str_length_app, Hp).
    assert (0 < String.length x) by (destruct x; [done|simpl; lia]).
    lia.
Qed.

Lemma whitespace_nonempty :
  (forall x, x ∈ whitespace -> x <> "")
  /\ (forall x, x ∈ List.map rev_str whitespace -> x <> "").
Proof.
  split; intros x Hx ->; revert Hx;
    apply (bool_decide_unpack _); by vm_compute.
Qed.

Lemma strip_trimmed (s : string) : trimmed (strip s).
Proof.
  destruct whitespace_nonempty as [Hws Hrev].
  unfold strip, trimmed.
  set (left := lstrip_fuel whitespace (String.length s) s).
  set (right := lstrip_fuel (List.map rev_str whitespace)
                  (String.length left) (rev_str left)).
  assert (drop_leading whitespace left = None) as Hleft
    by (by apply lstrip_fuel_clean).
  split.
  - destruct (lstrip_fuel_suffix (List.map rev_str whitespace)
                (String.length left) (rev_str left)) as [pre Hpre].
    fold right in Hpre.
    assert (left = rev_str right +:+ rev_str pre) as Hl
      by (by rewrite <- rev_str_app, <- Hpre, rev_str_involutive).
    apply drop_leading_none. intros x Hx.
    destruct (String.prefix x (rev_str right)) eqn:E; [|done].
    apply (prefix_append _ _ (rev_str pre)) in E. rewrite <- Hl in E.
    by rewrite (proj1 (drop_leading_none _ _) Hleft x Hx) in E.
  - rewrite rev_str_involutive. apply lstrip_fuel_clean; [done|].
    by rewrite rev_str_length.
Qed.

(** X14. A comma-separated field ([techStack] of a project, [tags] of a
    blog) is stored as one piece per comma plus one, so never as an empty
    list (an empty field gives one empty piece); joining what [split] cut
    gives the field back; and no stored piece begins or ends with a
    whitespace character. *)
Theorem pieces_spec (field : string) :
  List.length (pieces field) = S (count_char "," field)
  /\ String.concat "," (split_on "," field) = field
  /\ Forall trimmed (pieces field).
Proof.
  unfold pieces. split; [|split].
  - by rewrite length_map, split_on_length.
  - apply split_on_join.
  - apply Forall_forall. intros p Hp.
    apply list_elem_of_In, in_map_iff in Hp as (x & <- & _).
    apply strip_trimmed.
Qed.

(** ** The route layer *)

Lemma stored_listed_item (c : collection) (data : doc)
    (image : option UploadFile) (d : doc) (w w2 : World) :
  frame w w2 -> image_shape data image d ->
  exists before item,
    get_all c w = (Ok before, w)
    /\ get_all c (stored c d w2) = (Ok (before ++ [item])%list, stored c d w2)
    /\ listed_item data image (oids w) item.
Proof.
  intros F [[t Ht] Habs Hpres Hother].
  exists (List.map mongo_id_serializer (documents c w)),
    (mongo_id_serializer (<["_id" := VObjectId (oids w)]> d)).
  split; [apply get_all_run|]. split.
  - rewrite get_all_run, stored_documents_eq, map_app.
    by rewrite (frame_documents c _ _ F), (fr_oids _ _ F).
  - split.
    + apply mongo_id_serializer_internal.
    + apply (mongo_id_serializer_public _ (VObjectId (oids w))).
      apply lookup_insert_eq.
    + exists t. rewrite mongo_id_serializer_other by done.
      by rewrite lookup_insert_ne.
    + intros Ha. rewrite mongo_id_serializer_other by done.
      rewrite lookup_insert_ne by done. by apply Habs.
    + intros Hp. destruct (Hpres Hp) as [n Hn]. exists n.
      rewrite mongo_id_serializer_other by done.
      by rewrite lookup_insert_ne.
    + intros k Hk. rewrite !not_elem_of_cons in Hk.
      destruct Hk as (? & ? & ? & ? & _).
      rewrite mongo_id_serializer_other by done.
      rewrite lookup_insert_ne by done. by apply Hother.
Qed.

Lemma require_login_none (request : Request) (w : World) :
  get_current_user request w = (Ok None, w) ->
  require_login request w = (Raise (login_redirect request), w).
Proof. intros E. unfold require_login, bind. by rewrite E. Qed.

(** X15. Protected writes need a login: when no user resolves for the
    request, [create_project], [create_member], [create_gallery_item] and
    [create_blog] all raise the 307 redirect to the login page and leave the
    world exactly as it was: no document, no file, no hashing. *)
Theorem protected_writes_need_login (request : Request) (w : World) :
  get_current_user request w = (Ok None, w) ->
  (forall title description tech linkedin github image,
     create_project request title description tech linkedin github image w
     = (Raise (login_redirect request), w))
  /\ (forall name role email password linkedin github photo resume admin,
        create_member request name role email password linkedin github
          photo resume admin w
        = (Raise (login_redirect request), w))
  /\ (forall caption category description image,
        create_gallery_item request caption category description image w
        = (Raise (login_redirect request), w))
  /\ (forall title content date category author readTime tags image,
        create_blog request title content date category author readTime
          tags image w
        = (Raise (login_redirect request), w)).
Proof.
  intros Hnone%require_login_none.
  split; [|split; [|split]]; intros;
    unfold create_project, create_member, create_gallery_item, create_blog,
      bind; by rewrite Hnone.
Qed.

(** X16. A project posted by a logged-in user is listed: [create_project]
    returns the success result, and [get_projects] then answers what it
    answered before followed by one item with the form's title,
    description, github and linkedin links, the technology pieces, a
    24-digit ["id"], no ["_id"], a creation time, and an image URL under the
    upload prefix exactly when an image came with the form. *)
Theorem create_project_then_listed (request : Request) (user : doc)
    (title description tech linkedin github : string)
    (image : option UploadFile) (w : World) :
  require_login request w = (Ok user, w) ->
  exists (w' : World) before (item : doc),
    create_project request title description tech linkedin github image w
    = (Ok (result "success" "Project added successfully"), w')
    /\ get_projects w = (Ok before, w)
    /\ get_projects w' = (Ok (before ++ [item])%list, w')
    /\ item !! "title" = Some (VStr title)
    /\ item !! "description" = Some (VStr description)
    /\ item !! "techStack" = Some (VList (pieces tech))
    /\ item !! "github" = Some (VStr github)
    /\ item !! "linkedin" = Some (VStr linkedin)
    /\ item !! "_id" = None
    /\ item !! "id" = Some (VStr (hex_fixed 24 (oids w)))
    /\ (exists t, item !! "createdAt" = Some (VDate t))
    /\ (file_absent image -> item !! "imageUrl" = None)
    /\ (~ file_absent image ->
        exists n,
          item !! "imageUrl" = Some (VStr ("/" +:+ UPLOAD_DIR +:+ "/" +:+ n))).
Proof.
  intros Hlogin. unfold create_project. unfold bind at 1. rewrite Hlogin.
  set (data := <["title" := _]> _).
  destruct (add_project_run data image w) as (d & w2 & F & Sh & E);
    [by vm_compute|].
  destruct (stored_listed_item projects_collection data image d w w2 F Sh)
    as (before & item & Hb & Ha & [Hint Hid Hcr Habs Hpres Hf]).
  exists (stored projects_collection d w2), before, item.
  split; [done|]. split; [done|]. split; [done|].
  assert (forall k, k ∉ ["_id"; "id"; "imageUrl"; "createdAt"] ->
          forall v, data !! k = Some v -> item !! k = Some v) as Hget.
  { intros k Hk v <-. by apply Hf. }
  do 5 (split; [apply Hget; [not_listed|by vm_compute]|]).
  split; [done|]. split; [done|]. split; [done|]. split; [|done].
  intros Hno. by rewrite Habs.
Qed.

(** X17. A blog post by a logged-in user is listed: [create_blog] returns
    the success result, and [get_blogs] then answers what it answered
    before followed by one item with the form's title, content, date,
    category and author, the reading time followed by [ min read], the tag
    pieces, a 24-digit ["id"] and no ["_id"]. *)
Theorem create_blog_then_listed (request : Request) (user : doc)
    (title content date category author readTime tags : string)
    (image : option UploadFile) (w : World) :
  require_login request w = (Ok user, w) ->
  exists (w' : World) before (item : doc),
    create_blog request title content date category author readTime tags
      image w
    = (Ok (result "success" "Blog post added successfully"), w')
    /\ get_blogs w = (Ok before, w)
    /\ get_blogs w' = (Ok (before ++ [item])%list, w')
    /\ item !! "title" = Some (VStr title)
    /\ item !! "content" = Some (VStr content)
    /\ item !! "date" = Some (VStr date)
    /\ item !! "category" = Some (VStr category)
    /\ item !! "author" = Some (VStr author)
    /\ item !! "readTime" = Some (VStr (readTime +:+ " min read"))
    /\ item !! "tags" = Some (VList (pieces tags))
    /\ item !! "_id" = None
    /\ item !! "id" = Some (VStr (hex_fixed 24 (oids w))).
Proof.
  intros Hlogin. unfold create_blog. unfold bind at 1. rewrite Hlogin.
  set (data := <["title" := _]> _).
  destruct (add_blog_run data image w) as (d & w2 & F & Sh & E);
    [by vm_compute|].
  destruct (stored_listed_item blogs_collection data image d w w2 F Sh)
    as (before & item & Hb & Ha & [Hint Hid Hcr Habs Hpres Hf]).
  exists (stored blogs_collection d w2), before, item.
  split; [done|]. split; [done|]. split; [done|].
  assert (forall k, k ∉ ["_id"; "id"; "imageUrl"; "createdAt"] ->
          forall v, data !! k = Some v -> item !! k = Some v) as Hget.
  { intros k Hk v <-. by apply Hf. }
  do 7 (split; [apply Hget; [not_listed|by vm_compute]|]).
  by split.
Qed.


(** X19. The login page: [serve_login] sends a request whose session
    resolves to a user to [/add-project] with a 303, and otherwise renders
    [login.html] with no user and the [next] it was given; the latter
    happens exactly when the session holds no email or no user document
    matches it. *)
Theorem serve_login_spec (request : Request) (next : option string)
    (w : World) :
  let user_email := dict_get (session request) "user_email" in
  exists page,
    serve_login request next w = (Ok page, w)
    /\ (page = TemplateResponse "login.html" None next
        \/ page
           = PageRedirect (RedirectResponse "/add-project" HTTP_303_SEE_OTHER))
    /\ (page = TemplateResponse "login.html" None next
        <-> truthy user_email = false
            \/ List.find (matches "email" user_email) (users w) = None).
Proof.
  intros user_email.
  destruct (get_current_user_resolves request w) as (o & Hcur & Hnone & Hsome).
  fold user_email in Hnone.
  unfold serve_login, bind. rewrite Hcur.
  destruct o as [u|].
  - cbn [opt_dict_truthy]. rewrite (Hsome u eq_refl).
    eexists. split; [reflexivity|]. split; [by right|].
    split; [done|]. intros Hmiss. by apply Hnone in Hmiss.
  - eexists. split; [reflexivity|]. split; [by left|].
    split; [|done]. intros _. by apply Hnone.
Qed.

(** A check of [email_unused] that computes. *)
Lemma email_unused_check (w : World) (email : value) :
  forallb (fun u => negb (matches "email" email u)) (users w) = true ->
  email_unused w email.
Proof.
  intros Hall u Hu%list_elem_of_In.
  apply (proj1 (forallb_forall _ _) Hall) in Hu. by apply negb_true_iff.
Qed.

End Properties.

(** * The theorems at work on the sample data *)

Lemma ada_world_store_wf : store_wf ada_world.
Proof.
  apply (proj1 (proj2 (adds_keep_store_wf (H := toy_platform)))).
  apply store_wf_empty.
Qed.

Lemma ada_world_users_wf : users_wf ada_world.
Proof.
  apply (proj1 (proj2 (adds_keep_users_wf (H := toy_platform)))).
  apply users_wf_empty.
Qed.

Lemma ada_exists : user_exists ada_world (dict_get ada_form "email").
Proof. apply user_exists_check. by vm_compute. Qed.

Lemma ada_lookup :
  get_user_by_email (H := toy_platform) (VStr "ada@hive.org") ada_world
  = (Ok (Some ada_user), ada_world).
Proof. by vm_compute. Qed.

Lemma ada_wrong_password :
  password_mismatch (H := toy_platform) "ada@hive.org" "wrong" ada_world.
Proof.
  exists ada_user, (VStr (toy_hash 0 "s3cret")).
  split; [exact ada_lookup|]. split; by vm_compute.
Qed.

(** Adding Ada a second time, with a portrait. *)
Lemma add_member_duplicate_email_witness :
  user_exists ada_world (dict_get ada_form "email")
  /\ exists (d : doc) (w' : World),
       add_member (H := toy_platform) ada_form (Some portrait) None ada_world
       = (Ok error_duplicate, w')
       /\ users w' = users ada_world
       /\ hashed w' = hashed ada_world
       /\ members w'
          = (members ada_world
             ++ [<["_id" := VObjectId (oids ada_world)]> d])%list
       /\ member_shape ada_form (Some portrait) None d.
Proof.
  split; [exact ada_exists|].
  apply (add_member_duplicate_email (H := toy_platform)
           ada_form (Some portrait) None ada_world).
  - by vm_compute.
  - by vm_compute.
  - by vm_compute.
  - by vm_compute.
  - exact ada_exists.
Defined.

(** Adding an administrator whose password was left empty. *)
Lemma add_member_incomplete_admin_witness :
  truthy (dict_get anon_form "password") = false
  /\ exists (d : doc) (w' : World),
       add_member (H := toy_platform) anon_form None None empty_world
       = (Ok error_incomplete, w')
       /\ members w'
          = (members empty_world
             ++ [<["_id" := VObjectId (oids empty_world)]> d])%list
       /\ member_shape anon_form None None d
       /\ users w' = users empty_world
       /\ hashed w' = hashed empty_world.
Proof.
  split; [by vm_compute|].
  apply (add_member_incomplete_admin (H := toy_platform)
           anon_form None None empty_world).
  - by vm_compute.
  - right. right. by vm_compute.
Defined.

(** Saving the portrait into the empty world, and saving nothing. *)
Lemma save_upload_file_spec_witness :
  save_upload_file (H := toy_platform) None empty_world = (Ok None, empty_world)
  /\ fst (save_upload_file (H := toy_platform) (Some portrait) empty_world)
     = Ok (Some "/uploads/0000000000000000000000000000beef.PNG")
  /\ snd (splitext (generated_name (H := toy_platform) empty_world
                      "me.final.PNG"))
     = ".PNG".
Proof.
  split.
  - apply (save_upload_file_spec (H := toy_platform) None empty_world).
    by left.
  - destruct (save_upload_file_spec (H := toy_platform) (Some portrait)
                empty_world) as [_ Hpresent].
    destruct (Hpresent portrait "me.final.PNG" eq_refl eq_refl)
      as [Hrun Hext]; [discriminate|].
    split.
    + rewrite Hrun. by vm_compute.
    + rewrite Hext. by vm_compute.
Defined.

(** Reading Ada's store, and adding a project to it. *)
Lemma reads_publish_id_witness :
  store_wf ada_world
  /\ (exists l,
        get_all (H := toy_platform) members_collection ada_world
        = (Ok l, ada_world)
        /\ Forall2 (public_of (H := toy_platform))
             (documents members_collection ada_world) l)
  /\ lists_new_item (H := toy_platform) projects_collection
       (add_project (H := toy_platform) project_form (Some portrait))
       ada_world (Ok (result "success" "Project added successfully")).
Proof.
  split; [exact ada_world_store_wf|].
  destruct (reads_publish_id (H := toy_platform) ada_world ada_world_store_wf)
    as (Hall & _ & Hproject & _).
  split; [apply Hall|]. apply Hproject. by vm_compute.
Defined.

(** Ada logs in with her password, asking for [/add-blog]. *)
Lemma handle_login_success_witness :
  users_wf ada_world
  /\ exists user_email user_name target,
       ada_user !! "email" = Some user_email
       /\ ada_user !! "name" = Some user_name
       /\ handle_login (H := toy_platform) protected_request
            "ada@hive.org" "s3cret" "/add-blog" ada_world
          = (Ok (RedirectResponse target HTTP_303_SEE_OTHER,
                 <["user_name" := user_name]>
                   (<["user_email" := user_email]>
                      (session protected_request))), ada_world)
       /\ (target = "/add-blog"
           <-> "/add-blog" <> "" /\ String.prefix "/" "/add-blog" = true)
       /\ (target <> "/add-blog" -> target = "/add-project").
Proof.
  split; [exact ada_world_users_wf|].
  apply (handle_login_success (H := toy_platform) protected_request
           "ada@hive.org" "s3cret" "/add-blog" ada_world ada_user
           (VStr (toy_hash 0 "s3cret"))).
  - exact ada_world_users_wf.
  - exact ada_lookup.
  - by vm_compute.
  - by vm_compute.
Defined.

(** Ada mistypes her password, asking for [/add-blog]. *)
Lemma handle_login_failure_witness :
  login_fails (H := toy_platform) "ada@hive.org" "wrong" ada_world
  /\ exists location,
       handle_login (H := toy_platform) protected_request
         "ada@hive.org" "wrong" "/add-blog" ada_world
       = (Ok (RedirectResponse location HTTP_303_SEE_OTHER,
              session protected_request), ada_world)
       /\ location = "/login?error=1&next=/add-blog".
Proof.
  assert (login_fails (H := toy_platform) "ada@hive.org" "wrong" ada_world)
    as Hfails by (right; exact ada_wrong_password).
  split; [exact Hfails|].
  destruct (handle_login_failure (H := toy_platform) protected_request
              "ada@hive.org" "wrong" "/add-blog" ada_world Hfails)
    as (location & Hrun & _ & Hmis).
  destruct (Hmis ada_wrong_password) as [Hrel _].
  destruct (Hrel eq_refl) as [Hloc _].
  exists location. split; [exact Hrun|]. rewrite Hloc. by vm_compute.
Defined.

(** C4, refuted as it is written: Ada mistypes her password while the form
    carries an absolute return-to URL; the redirect is plain
    [/login?error=1] and carries no [next] parameter. *)
Lemma login_failure_drops_return_to :
  ~ login_failure_keeps_return_to (H := toy_platform) protected_request
      "ada@hive.org" "wrong" "https://evil.example/" ada_world.
Proof.
  intros Hclaim.
  destruct Hclaim as (location & Hrun & _ & Hkept).
  { right. exact ada_wrong_password. }
  rewrite (handle_login_mismatch (H := toy_platform) _ _ _ _ _
             ada_wrong_password) in Hrun.
  injection Hrun as <-. by vm_compute in Hkept.
Qed.

(** Ada's first registration: the member document carries neither secret,
    the user document holds the digest, and another password would have
    left the same members. *)
Lemma add_member_keeps_secrets_witness :
  exists (d : doc) salt t,
    members ada_world
    = (members empty_world
       ++ [<["_id" := VObjectId (oids empty_world)]> d])%list
    /\ member_shape ada_form None None d
    /\ d !! "password" = None
    /\ d !! "isAdmin" = None
    /\ users ada_world
       = (users empty_world
          ++ [admin_user_doc (N.succ (oids empty_world))
                (dict_get ada_form "name") (dict_get ada_form "email")
                (toy_hash salt "s3cret") t])%list
    /\ members
         (snd (add_member (H := toy_platform)
                 (<["password" := VStr "opensesame"]> ada_form) None None
                 empty_world))
       = members ada_world.
Proof.
  destruct (add_member_keeps_secrets (H := toy_platform) ada_form None None
              empty_world)
    as (r & d & w' & Hrun & Hm & Hshape & Hpw & Had & Hother & Husers).
  assert (w' = ada_world) as -> by (unfold ada_world; by rewrite Hrun).
  destruct Husers as [Hsame|(p & salt & t & Hp & Hu)].
  - by vm_compute in Hsame.
  - assert (p = "s3cret") as -> by (vm_compute in Hp; congruence).
    exists d, salt, t.
    split; [exact Hm|]. split; [exact Hshape|]. split; [exact Hpw|].
    split; [exact Had|]. split; [exact Hu|].
    apply Hother. intros k Hk1 Hk2. by rewrite lookup_insert_ne.
Defined.

(** * The further properties at work on the sample data *)

Lemma bob_unused : email_unused ada_world (VStr "bob@hive.org").
Proof. apply email_unused_check. by vm_compute. Qed.

Lemma ada_request_passes :
  require_login (H := toy_platform) ada_request ada_world
  = (Ok ada_user, ada_world).
Proof. by vm_compute. Qed.

Lemma anonymous_request :
  get_current_user (H := toy_platform) protected_request ada_world
  = (Ok None, ada_world).
Proof. by vm_compute. Qed.

(** Adding Bob to Ada's store keeps the emails distinct; two registrations
    of Bob whose lookups both came first do not. *)
Lemma distinct_emails_need_isolation_witness :
  distinct_emails ada_world
  /\ distinct_emails
       (snd (add_member (H := toy_platform) bob_form None None ada_world))
  /\ ~ distinct_emails
         (snd (lookups_first (H := toy_platform)
                 (VBool true) (VStr "Bob") (VStr "bob@hive.org")
                 (VStr "hunter2")
                 (VBool true) (VStr "Robert") (VStr "bob@hive.org")
                 (VStr "hunter3") ada_world)).
Proof.
  destruct (distinct_emails_need_isolation (H := toy_platform))
    as (_ & Hmember & _ & _ & _ & Hrace).
  assert (distinct_emails ada_world) as Hada.
  { apply Hmember. apply NoDup_nil_2. }
  split; [exact Hada|]. split; [by apply Hmember|].
  destruct (Hrace (VBool true) (VBool true) (VStr "Bob") (VStr "Robert")
              (VStr "bob@hive.org") "hunter2" "hunter3" ada_world)
    as (salt1 & salt2 & t1 & t2 & w' & Hrun & _ & Hdup);
    try done; try (by vm_compute); [exact bob_unused|].
  by rewrite Hrun.
Defined.

(** Bob becomes the second administrator. *)
Lemma add_member_creates_admin_witness :
  email_unused ada_world (dict_get bob_form "email")
  /\ exists (d : doc) salt t (w' : World) (u : doc),
       add_member (H := toy_platform) bob_form (Some portrait) None ada_world
       = (Ok success_admin, w')
       /\ members w'
          = (members ada_world
             ++ [<["_id" := VObjectId (oids ada_world)]> d])%list
       /\ member_shape bob_form (Some portrait) None d
       /\ users w'
          = (users ada_world
             ++ [admin_user_doc (N.succ (oids ada_world))
                   (dict_get bob_form "name") (dict_get bob_form "email")
                   (toy_hash salt "hunter2") t])%list
       /\ hashed w' = "hunter2" :: hashed ada_world
       /\ get_user_by_email (H := toy_platform) (dict_get bob_form "email") w'
          = (Ok (Some u), w')
       /\ u !! "email" = Some (dict_get bob_form "email")
       /\ u !! "password" = Some (VStr (toy_hash salt "hunter2")).
Proof.
  split; [exact bob_unused|].
  apply (add_member_creates_admin (H := toy_platform) bob_form
           (Some portrait) None ada_world "hunter2").
  - by vm_compute.
  - by vm_compute.
  - by vm_compute.
  - by vm_compute.
  - discriminate.
  - by vm_compute.
  - exact bob_unused.
Defined.

(** Ada added as an ordinary member. *)
Lemma add_member_plain_witness :
  truthy (form_admin plain_form) = false
  /\ exists (d : doc) (w' : World),
       add_member (H := toy_platform) plain_form None None empty_world
       = (Ok success_member, w')
       /\ members w'
          = (members empty_world
             ++ [<["_id" := VObjectId (oids empty_world)]> d])%list
       /\ member_shape plain_form None None d
       /\ users w' = users empty_world
       /\ hashed w' = hashed empty_world.
Proof.
  split; [by vm_compute|].
  apply (add_member_plain (H := toy_platform) plain_form None None empty_world).
  by vm_compute.
Defined.

(** Bob's form posted twice. *)
Lemma add_member_twice_witness :
  exists (w1 w2 : World) (m1 m2 u : doc),
    add_member (H := toy_platform) bob_form None None ada_world
    = (Ok success_admin, w1)
    /\ add_member (H := toy_platform) bob_form (Some portrait) None w1
       = (Ok error_duplicate, w2)
    /\ members w2 = (members ada_world ++ [m1; m2])%list
    /\ users w2 = (users ada_world ++ [u])%list
    /\ u !! "email" = Some (dict_get bob_form "email").
Proof.
  apply (add_member_twice (H := toy_platform) bob_form None None
           (Some portrait) None ada_world "hunter2").
  - by vm_compute.
  - by vm_compute.
  - by vm_compute.
  - by vm_compute.
  - discriminate.
  - by vm_compute.
  - exact bob_unused.
Defined.

(** Ada logs in, and the gate lets her through. *)
Lemma login_then_current_user_witness :
  exists response session',
    handle_login (H := toy_platform) protected_request "ada@hive.org"
      "s3cret" "/add-blog" ada_world
    = (Ok (response, session'), ada_world)
    /\ forall url',
         get_current_user (H := toy_platform) (mkRequest session' url')
           ada_world
         = (Ok (Some ada_user), ada_world)
         /\ require_login (H := toy_platform) (mkRequest session' url')
              ada_world
            = (Ok ada_user, ada_world).
Proof.
  apply (login_then_current_user (H := toy_platform) protected_request
           "ada@hive.org" "s3cret" "/add-blog" ada_world ada_user
           (toy_hash 0 "s3cret") (VStr "Ada")).
  - discriminate.
  - exact ada_lookup.
  - by vm_compute.
  - by vm_compute.
  - by vm_compute.
  - by vm_compute.
Defined.

(** Bob registers and logs in. *)
Lemma register_then_login_witness :
  exists (w' : World) (u : doc),
    add_member (H := toy_platform) bob_form None None ada_world
    = (Ok success_admin, w')
    /\ handle_login (H := toy_platform) protected_request "bob@hive.org"
         "hunter2" "" w'
       = (Ok (RedirectResponse (login_target "") HTTP_303_SEE_OTHER,
              logged_in protected_request (VStr "bob@hive.org")
                (dict_get bob_form "name")), w')
    /\ forall url',
         require_login (H := toy_platform)
           (mkRequest
              (logged_in protected_request (VStr "bob@hive.org")
                 (dict_get bob_form "name")) url') w'
         = (Ok u, w').
Proof.
  apply (register_then_login (H := toy_platform) bob_form None None ada_world
           protected_request "bob@hive.org" "hunter2" "").
  - intros salt. by vm_compute.
  - by vm_compute.
  - by vm_compute.
  - by vm_compute.
  - discriminate.
  - by vm_compute.
  - discriminate.
  - by vm_compute.
  - exact bob_unused.
Defined.

(** Two uploads drawing the same token. *)
Lemma generated_names_collide_on_tokens_witness :
  generated_name (H := toy_platform) empty_world "a.png"
  = generated_name (H := toy_platform) empty_world "b.png"
  /\ (entropy (Platform := toy_platform) (draws empty_world) mod 2 ^ 128
      = entropy (Platform := toy_platform) (draws empty_world) mod 2 ^ 128)%N.
Proof.
  assert (generated_name (H := toy_platform) empty_world "a.png"
          = generated_name (H := toy_platform) empty_world "b.png") as Hsame
    by (by vm_compute).
  split; [exact Hsame|].
  exact (generated_names_collide_on_tokens (H := toy_platform)
           empty_world empty_world "a.png" "b.png" Hsame).
Defined.

(** An anonymous request for a protected page. *)
Lemma require_login_redirect_encoded_witness :
  exists q,
    HTTPException 307
      "/login?next=http%3A%2F%2Ftestserver%2Fadd-project%3Ftab%3D1"
    = HTTPException HTTP_307_TEMPORARY_REDIRECT ("/login?next=" +:+ q)
    /\ forall c, mem_char c "&?#/=+: " = true -> mem_char c q = false.
Proof.
  apply (require_login_redirect_encoded (H := toy_platform) protected_request
           ada_world ada_world).
  by vm_compute.
Defined.

(** An anonymous post of a gallery item. *)
Lemma protected_writes_need_login_witness :
  create_gallery_item (H := toy_platform) protected_request "Hive" "events"
    "The swarm" (Some portrait) ada_world
  = (Raise (login_redirect protected_request), ada_world).
Proof.
  apply (protected_writes_need_login (H := toy_platform) protected_request
           ada_world anonymous_request).
Defined.

(** Ada posts a project with a portrait. *)
Lemma create_project_then_listed_witness :
  exists (w' : World) before (item : doc),
    create_project (H := toy_platform) ada_request "Hive" "A swarm"
      " rocq, python ," "https://linkedin.com/in/ada" "https://github.com/ada"
      (Some portrait) ada_world
    = (Ok (result "success" "Project added successfully"), w')
    /\ get_projects (H := toy_platform) w' = (Ok (before ++ [item])%list, w')
    /\ item !! "techStack" = Some (VList ["rocq"; "python"; ""]).
Proof.
  destruct (create_project_then_listed (H := toy_platform) ada_request
              ada_user "Hive" "A swarm" " rocq, python ,"
              "https://linkedin.com/in/ada" "https://github.com/ada"
              (Some portrait) ada_world ada_request_passes)
    as (w' & before & item & Hrun & _ & Hlist & _ & _ & Htech & _).
  exists w', before, item. split; [exact Hrun|]. split; [exact Hlist|].
  rewrite Htech. by vm_compute.
Defined.

(** Ada posts a blog entry. *)
Lemma create_blog_then_listed_witness :
  exists (w' : World) before (item : doc),
    create_blog (H := toy_platform) ada_request "Notes" "Text" "2025-01-21"
      "news" "Ada" "7" "" None ada_world
    = (Ok (result "success" "Blog post added successfully"), w')
    /\ get_blogs (H := toy_platform) w' = (Ok (before ++ [item])%list, w')
    /\ item !! "readTime" = Some (VStr "7 min read")
    /\ item !! "tags" = Some (VList [""]).
Proof.
  destruct (create_blog_then_listed (H := toy_platform) ada_request
              ada_user "Notes" "Text" "2025-01-21" "news" "Ada" "7" "" None
              ada_world ada_request_passes)
    as (w' & before & item & Hrun & _ & Hlist & _ & _ & _ & _ & _ & Hread
        & Htags & _).
  exists w', before, item. split; [exact Hrun|]. split; [exact Hlist|].
  split; [exact Hread|]. rewrite Htags. by vm_compute.
Defined.

